(** * SOCKS5 client of mosdns-x: address codec and session negotiator

    A shallow embedding of package [dialer]:
    - the address codec [SocksAddr] ([ParseSocksAddr], [Slice], the
      constructors and the setters);
    - the session negotiator [SocksDialer.DialContext] together with
      [handleAssociateStatus].

    Go values are modelled as follows.  A [byte] is an 8-bit character, a Go
    [string] is a Rocq [string] (a sequence of bytes), [int] and [uint16] are
    integers in [Z] whose conversions write their wrap-around out.  A
    [netip.Addr] is modelled by its three shapes.  An [(T, error)] result is a
    [result T].  Transport I/O is an explicit state-and-error monad over a
    scripted [world] that keeps a log of every transport operation. *)

From Stdlib Require Import ZArith List String Ascii Bool Lia DecimalString.
From Stdlib Require Import DecimalPos.
Import ListNotations.

Local Open Scope string_scope.
Local Open Scope list_scope.
Local Open Scope Z_scope.

(** ** Bytes, strings and integers *)

Definition byte := ascii.

(** Go's conversion [byte(n)]: the low eight bits. *)
Definition byte_of_Z (n : Z) : byte := ascii_of_N (Z.to_N (n mod 256)).

(** Go's conversion [int(b)] of a byte. *)
Definition Z_of_byte (b : byte) : Z := Z.of_N (N_of_ascii b).

(** Go's conversion [uint16(n)]. *)
Definition uint16_of_Z (n : Z) : Z := n mod 65536.

(** [[]byte(s)] and [string(b)]. *)
Definition bytes_of_string (s : string) : list byte := list_ascii_of_string s.
Definition string_of_bytes (b : list byte) : string := string_of_list_ascii b.

(** Go's [len] on strings and slices. *)
Definition len (s : string) : Z := Z.of_nat (String.length s).
Definition blen (b : list byte) : Z := Z.of_nat (List.length b).

(** [make([]byte, n)]. *)
Definition make_bytes (n : nat) : list byte := repeat (byte_of_Z 0) n.

(** [b[i]] on a slice known to be long enough. *)
Definition at_ (b : list byte) (i : nat) : byte := nth i b (byte_of_Z 0).

(** [%d] and [%v] of an integer. *)
Definition itoa (n : Z) : string := NilZero.string_of_int (Z.to_int n).

(** [binary.BigEndian.AppendUint16] and [binary.BigEndian.Uint16]. *)
Definition AppendUint16 (b : list byte) (v : Z) : list byte :=
  b ++ [byte_of_Z (Z.shiftr v 8); byte_of_Z v].

Definition Uint16 (b : list byte) : Z :=
  Z.lor (Z_of_byte (at_ b 1)) (Z.shiftl (Z_of_byte (at_ b 0)) 8).

(** ** Results and errors *)

Definition error := string.

Inductive result (A : Type) : Type :=
| Ok (a : A)
| Err (e : error).
Arguments Ok {A} a.
Arguments Err {A} e.

Definition is_err {A} (r : result A) : bool :=
  match r with Ok _ => false | Err _ => true end.

(** ** Package [strings] and [strconv], as far as the codec uses them *)

(** [strings.Cut] with a one-byte separator: the text before and after the
    first occurrence of [sep]. *)
Fixpoint Cut (s : string) (sep : ascii) : option (string * string) :=
  match s with
  | EmptyString => None
  | String c t =>
      if Ascii.eqb c sep then Some (EmptyString, t)
      else match Cut t sep with
           | Some (a, b) => Some (String c a, b)
           | None => None
           end
  end.

(** [strings.Contains(s, sep)] for a one-byte [sep]. *)
Definition Contains (s : string) (sep : ascii) : bool :=
  match Cut s sep with Some _ => true | None => false end.

(** [strings.SplitN(s, sep, 2)] for a one-byte [sep]. *)
Definition SplitN2 (s : string) (sep : ascii) : list string :=
  match Cut s sep with
  | Some (a, b) => [a; b]
  | None => [s]
  end.

Definition is_digit (c : ascii) : bool :=
  (48 <=? Z_of_byte c) && (Z_of_byte c <=? 57).

(** The digit loop of [strconv.Atoi]: [n = n*10 + int(ch - '0')]. *)
Fixpoint digits_value (s : string) (acc : Z) : option Z :=
  match s with
  | EmptyString => Some acc
  | String c t =>
      if is_digit c then digits_value t (acc * 10 + (Z_of_byte c - 48))
      else None
  end.

Definition minInt : Z := - 2 ^ 63.
Definition maxInt : Z := 2 ^ 63 - 1.

(** [strconv.Atoi] on a 64-bit platform: an optional sign, then at least one
    decimal digit; [None] stands for a syntax error or a range error. *)
Definition Atoi (s : string) : option Z :=
  match s with
  | EmptyString => None
  | String c t =>
      let neg := Ascii.eqb c "-" in
      let body := if neg || Ascii.eqb c "+" then t else s in
      match body with
      | EmptyString => None
      | _ =>
          match digits_value body 0 with
          | None => None
          | Some n =>
              let v := if neg then - n else n in
              if (minInt <=? v) && (v <=? maxInt) then Some v else None
          end
      end
  end.

(** ** Package [net/netip]: the address value *)

Module netip.

(** A [netip.Addr] is the zero value, an IPv4 address, or an IPv6 address
    with a zone (the empty zone is "no zone"). *)
Inductive Addr : Type :=
| Zero
| V4 (a0 a1 a2 a3 : byte)
| V6 (a0 a1 a2 a3 a4 a5 a6 a7 a8 a9 a10 a11 a12 a13 a14 a15 : byte)
     (zone : string).

Record AddrPort : Type := AddrPortFrom { ip : Addr; port : Z }.

Definition Is4 (a : Addr) : bool :=
  match a with V4 _ _ _ _ => true | _ => false end.

Definition Is6 (a : Addr) : bool :=
  match a with V6 _ _ _ _ _ _ _ _ _ _ _ _ _ _ _ _ _ => true | _ => false end.

Definition IsValid (a : Addr) : bool :=
  match a with Zero => false | _ => true end.

Definition is0 (b : byte) : bool := Z_of_byte b =? 0.
Definition isff (b : byte) : bool := Z_of_byte b =? 255.

(** An IPv6 address of the form [::ffff:a.b.c.d]. *)
Definition Is4In6 (a : Addr) : bool :=
  match a with
  | V6 a0 a1 a2 a3 a4 a5 a6 a7 a8 a9 a10 a11 _ _ _ _ _ =>
      is0 a0 && is0 a1 && is0 a2 && is0 a3 && is0 a4 && is0 a5 &&
      is0 a6 && is0 a7 && is0 a8 && is0 a9 && isff a10 && isff a11
  | _ => false
  end.

Definition Unmap (a : Addr) : Addr :=
  match a with
  | V6 _ _ _ _ _ _ _ _ _ _ _ _ a12 a13 a14 a15 _ =>
      if Is4In6 a then V4 a12 a13 a14 a15 else a
  | _ => a
  end.

Definition WithZone (a : Addr) (zone : string) : Addr :=
  match a with
  | V6 a0 a1 a2 a3 a4 a5 a6 a7 a8 a9 a10 a11 a12 a13 a14 a15 _ =>
      V6 a0 a1 a2 a3 a4 a5 a6 a7 a8 a9 a10 a11 a12 a13 a14 a15 zone
  | _ => a
  end.

Definition AsSlice (a : Addr) : list byte :=
  match a with
  | Zero => []
  | V4 a0 a1 a2 a3 => [a0; a1; a2; a3]
  | V6 a0 a1 a2 a3 a4 a5 a6 a7 a8 a9 a10 a11 a12 a13 a14 a15 _ =>
      [a0; a1; a2; a3; a4; a5; a6; a7; a8; a9; a10; a11; a12; a13; a14; a15]
  end.

(** [netip.AddrFromSlice]: four bytes make an IPv4 address, sixteen an
    IPv6 address without zone, any other length is refused. *)
Definition AddrFromSlice (b : list byte) : option Addr :=
  match b with
  | [a0; a1; a2; a3] => Some (V4 a0 a1 a2 a3)
  | [a0; a1; a2; a3; a4; a5; a6; a7; a8; a9; a10; a11; a12; a13; a14; a15] =>
      Some (V6 a0 a1 a2 a3 a4 a5 a6 a7 a8 a9 a10 a11 a12 a13 a14 a15 EmptyString)
  | _ => None
  end.

(** [0.0.0.0] or [::] (without zone). *)
Definition IsUnspecified (a : Addr) : bool :=
  match a with
  | Zero => false
  | V4 a0 a1 a2 a3 => is0 a0 && is0 a1 && is0 a2 && is0 a3
  | V6 a0 a1 a2 a3 a4 a5 a6 a7 a8 a9 a10 a11 a12 a13 a14 a15 zone =>
      is0 a0 && is0 a1 && is0 a2 && is0 a3 && is0 a4 && is0 a5 &&
      is0 a6 && is0 a7 && is0 a8 && is0 a9 && is0 a10 && is0 a11 &&
      is0 a12 && is0 a13 && is0 a14 && is0 a15 && String.eqb zone EmptyString
  end.

(** [netip.Addr.Zone]: the zone of an IPv6 address, empty otherwise. *)
Definition Zone (a : Addr) : string :=
  match a with
  | V6 _ _ _ _ _ _ _ _ _ _ _ _ _ _ _ _ zone => zone
  | _ => EmptyString
  end.

End netip.

(** ** Protocol constants *)

Definition Version5 : Z := 5.
Definition MethodNoAuth : Z := 0.
Definition MethodUserPass : Z := 2.
Definition AuthSuccessed : Z := 0.
Definition Reversed : Z := 0.
Definition Nofragment : Z := 0.
Definition TypeIPv4 : Z := 1.
Definition TypeFqdn : Z := 3.
Definition TypeIPv6 : Z := 4.
Definition CMDCONNECT : Z := 1.
Definition CMDBIND : Z := 2.
Definition CMDASSOCIATE : Z := 3.

(** ** The address codec *)

Record SocksAddr : Type := mkSocksAddr {
  addr : netip.Addr;
  fqdn : string;
  port : Z
}.

(** The zero value [SocksAddr{}]. *)
Definition zeroSocksAddr : SocksAddr := mkSocksAddr netip.Zero EmptyString 0.

Definition SocksAddrFromFqdnPort (name : string) (p : Z) : SocksAddr :=
  mkSocksAddr netip.Zero name p.

Definition SocksAddrFromAddrPort (addrPort : netip.AddrPort) : SocksAddr :=
  mkSocksAddr (netip.ip addrPort) EmptyString (netip.port addrPort).

Definition SetAddr (s : SocksAddr) (a : netip.Addr) : SocksAddr :=
  if netip.Is4In6 a
  then mkSocksAddr (netip.Unmap a) (fqdn s) (port s)
  else mkSocksAddr a (fqdn s) (port s).

Definition SetFqdn (s : SocksAddr) (name : string) : SocksAddr :=
  mkSocksAddr (addr s) name (port s).

Definition SetPort (s : SocksAddr) (p : Z) : SocksAddr :=
  mkSocksAddr (addr s) (fqdn s) p.

Definition Slice (s : SocksAddr) : list byte :=
  let slice :=
    if len (fqdn s) >? 0 then
      let name := bytes_of_string (fqdn s) in
      [byte_of_Z TypeFqdn; byte_of_Z (blen name)] ++ name
    else if netip.Is4 (addr s) then
      [byte_of_Z TypeIPv4] ++ netip.AsSlice (addr s)
    else
      [byte_of_Z TypeIPv6] ++ netip.AsSlice (addr s)
  in
  AppendUint16 slice (port s).

(** ** Transport: a scripted world and its state-and-error monad *)

Inductive event : Type :=
| EvDial (network address : string)
| EvWrite (data : list byte)
| EvRead (size : nat).

(** What one call of [Read] finds on the control connection: a segment of
    bytes, or a transport error. *)
Inductive delivery : Type :=
| Data (bs : list byte)
| Fault (e : error).

(** [dials] and [writes] script the outcome of the successive dials and
    writes ([None] is success, an exhausted script is success too);
    [inbound] is what the proxy sends on the control connection; [log]
    records every transport operation, oldest first. *)
Record world : Type := mkWorld {
  dials : list (option error);
  writes : list (option error);
  inbound : list delivery;
  log : list event
}.

Definition IO (A : Type) : Type := world -> result A * world.

Definition ret {A} (a : A) : IO A := fun w => (Ok a, w).

Definition fail {A} (e : error) : IO A := fun w => (Err e, w).

Definition bind {A B} (c : IO A) (k : A -> IO B) : IO B :=
  fun w =>
    match c w with
    | (Ok a, w') => k a w'
    | (Err e, w') => (Err e, w')
    end.

(** [if err != nil { return nil, fmt.Errorf(..., err) }]. *)
Definition wrap {A} (c : IO A) (f : error -> error) : IO A :=
  fun w =>
    match c w with
    | (Ok a, w') => (Ok a, w')
    | (Err e, w') => (Err (f e), w')
    end.

Notation "x <- c ;; k" := (bind c (fun x => k))
  (at level 61, c at next level, right associativity).
Notation "' pat <- c ;; k" := (bind c (fun x => match x with pat => k end))
  (at level 61, pat pattern, c at next level, right associativity).
Infix "+++" := String.append (right associativity, at level 60).

Inductive handle : Type := Handle (network address : string).

Definition handle_network (h : handle) : string :=
  match h with Handle n _ => n end.

(** The two type assertions on the relay socket, to [net.PacketConn] and to
    a pointer to [net.UDPConn]: what a dial on network "udp" returns passes
    both. *)
Definition is_packet_conn (h : handle) : bool :=
  String.eqb (handle_network h) "udp".
Definition is_udp_conn (h : handle) : bool :=
  String.eqb (handle_network h) "udp".

Definition logged (w : world) (e : event) : list event := log w ++ [e].

(** [net.Dialer.DialContext]. *)
Definition dial (network address : string) : IO handle :=
  fun w =>
    let w' := mkWorld (tl (dials w)) (writes w) (inbound w)
                (logged w (EvDial network address)) in
    match dials w with
    | Some e :: _ => (Err e, w')
    | _ => (Ok (Handle network address), w')
    end.

(** [conn.Write] on the control connection. *)
Definition conn_Write (b : list byte) : IO Z :=
  fun w =>
    let w' := mkWorld (dials w) (tl (writes w)) (inbound w)
                (logged w (EvWrite b)) in
    match writes w with
    | Some e :: _ => (Err e, w')
    | _ => (Ok (blen b), w')
    end.

(** [conn.Read] on the control connection into a fresh buffer of [size]
    bytes: the count read and the buffer.  A read into an empty buffer
    returns at once with [0, nil], as Go's network connections do; a read
    takes at most one segment, and at most [size] bytes of it; when the
    proxy has nothing more to send the read fails with [EOF]. *)
Definition conn_Read (size : nat) : IO (Z * list byte) :=
  fun w =>
    let upd inb := mkWorld (dials w) (writes w) inb (logged w (EvRead size)) in
    match size with
    | O => (Ok (0, []), upd (inbound w))
    | _ =>
        match inbound w with
        | [] => (Err "EOF", upd [])
        | Fault e :: rest => (Err e, upd rest)
        | Data bs :: rest =>
            let got := firstn size bs in
            let left := skipn size bs in
            let buf := got ++ make_bytes (size - List.length got) in
            (Ok (blen got, buf),
             upd (match left with [] => rest | _ => Data left :: rest end))
        end
    end.

(** ** The session negotiator *)

Record SocksDialer : Type := mkSocksDialer { dialer_addr : SocksAddr }.

(** Modelled from the spec: the wrapping UDP connection [SocksPacketConn],
    whose declaration is not among the sources.  It holds the control
    connection, the UDP socket, a scratch buffer of [cache] bytes and an
    optional fixed destination. *)
Record SocksPacketConn : Type := mkSocksPacketConn {
  spc_conn : handle;
  spc_inner : handle;
  spc_cache : Z;
  spc_dest : option SocksAddr
}.

(** The [net.Conn] that [DialContext] returns. *)
Inductive Conn : Type :=
| StreamConn (conn : handle)
| PacketConn (spc : SocksPacketConn).

Definition handleAssociateStatus (status : byte) : string :=
  match Z_of_byte status with
  | 1 => "associate failed: general socks server failure"
  | 2 => "connection not allowed by ruleset"
  | 3 => "network unreachable"
  | 4 => "host unreachable"
  | 5 => "connection refused"
  | 6 => "ttl expired"
  | 7 => "command not supported"
  | 8 => "address type not supported"
  | 9 => "host unreachable"
  | _ => "unassigned"
  end.

(** The by-type decoder of the bound address (the [switch authRes[3]] of
    [DialContext] and the port that follows it): the address is built
    field by field in [bindAddr], starting from the zero value. *)
Definition readBindAddr (atyp : byte) : IO SocksAddr :=
  let bindAddr := zeroSocksAddr in
  bindAddr <-
    (if Z_of_byte atyp =? TypeIPv4 then
       '(n, buf) <- wrap (conn_Read 4)
          (fun err => "parse ipv4 bind address failed: " +++ err) ;;
       if n <? 4 then
         fail "parse ipv4 bind address failed: bind address too short"
       else
         match netip.AddrFromSlice buf with
         | Some a => ret (SetAddr bindAddr a)
         | None => fail "parse ipv4 bind address failed: invalid ipv4 address"
         end
     else if Z_of_byte atyp =? TypeFqdn then
       '(n, addrLen) <- wrap (conn_Read 1)
          (fun err => "parse fqdn bind address length failed: " +++ err) ;;
       if n =? 0 then
         fail "parse fqdn bind address failed: length is zero"
       else
         '(n, buf) <- wrap (conn_Read (Z.to_nat (Z_of_byte (at_ addrLen 0))))
            (fun err => "parse fqdn bind address failed: " +++ err) ;;
         if n <? Z_of_byte (at_ addrLen 0) then
           fail "parse fqdn bind address failed: bind address too short"
         else ret (SetFqdn bindAddr (string_of_bytes buf))
     else if Z_of_byte atyp =? TypeIPv6 then
       '(n, buf) <- wrap (conn_Read 16)
          (fun err => "parse ipv6 bind address failed: " +++ err) ;;
       if n <? 16 then
         fail "parse ipv6 bind address failed: bind address too short"
       else
         match netip.AddrFromSlice buf with
         | Some a => ret (SetAddr bindAddr a)
         | None => fail "parse ipv6 bind address failed: invalid ipv6 address"
         end
     else
       fail ("unsupported bind address type: " +++ itoa (Z_of_byte atyp))) ;;
  '(n, rawPort) <- wrap (conn_Read 2)
     (fun err => "parse bind port failed: " +++ err) ;;
  if n <? 2 then fail "parse bind port failed: bind port too short"
  else ret (SetPort bindAddr (Uint16 rawPort)).

Section Dialer.

(** The two textual functions of [net/netip] the package calls:
    [netip.ParseAddrPort] and [netip.Addr.String]. *)
Variable ParseAddrPort : string -> result netip.AddrPort.
Variable Addr_String : netip.Addr -> string.

(** The last branch of the inner [match] is the out-of-range panic of
    [addrPort[1]]; it cannot be reached, the text holds a colon there. *)
Definition ParseSocksAddr (s : string) : result SocksAddr :=
  match ParseAddrPort s with
  | Ok addrPort =>
      if netip.Is4In6 (netip.ip addrPort) then
        Ok (mkSocksAddr (netip.Unmap (netip.ip addrPort)) EmptyString
              (netip.port addrPort))
      else
        Ok (mkSocksAddr (netip.ip addrPort) EmptyString (netip.port addrPort))
  | Err _ =>
      if negb (Contains s ":") then Err "invalid socksaddr"
      else
        match SplitN2 s ":" with
        | host :: portText :: _ =>
            if blen (bytes_of_string host) >? 255 then
              Err "address too long"
            else
              match Atoi portText with
              | Some p =>
                  if (p <? 0) || (p >? 65535) then Err "invalid port"
                  else Ok (mkSocksAddr netip.Zero host (uint16_of_Z p))
              | None => Err "invalid port"
              end
        | _ => Err "index out of range"
        end
  end.

Definition SocksAddr_String (s : SocksAddr) : string :=
  if len (fqdn s) >? 0 then fqdn s +++ ":" +++ itoa (port s)
  else Addr_String (addr s) +++ ":" +++ itoa (port s).

Definition newSocksDialer (proxy : string) : result SocksDialer :=
  match ParseSocksAddr proxy with
  | Ok sAddr => Ok (mkSocksDialer sAddr)
  | Err err => Err err
  end.

Definition DialContext (d : SocksDialer) (network target : string)
  : IO Conn :=
  if negb (String.eqb network "tcp") && negb (String.eqb network "udp") then
    fail ("unsupported network type: " +++ network)
  else
    conn <- wrap (dial "tcp" (SocksAddr_String (dialer_addr d)))
       (fun err => "dial faile: " +++ err) ;;
    let negoReq := [byte_of_Z Version5; byte_of_Z 1; byte_of_Z MethodNoAuth] in
    _ <- wrap (conn_Write negoReq)
       (fun err => "send negotiation request failed: " +++ err) ;;
    '(n, negoRes) <- wrap (conn_Read 2)
       (fun err => "receive negotiation response failed: " +++ err) ;;
    if n <? 2 then fail "negotiation response too short"
    else if negb (Z_of_byte (at_ negoRes 0) =? 5) then
      fail ("unsupported negotiation response version: "
            +++ itoa (Z_of_byte (at_ negoReq 0)))
    else
      let reqType := if String.eqb network "tcp" then "connect" else "associate" in
      let cmd := if String.eqb network "tcp" then CMDCONNECT else CMDASSOCIATE in
      match ParseSocksAddr target with
      | Err err => fail ("parse socks addr failed: " +++ err)
      | Ok sAddr =>
          let authReq :=
            [byte_of_Z Version5; byte_of_Z cmd; byte_of_Z Reversed]
              ++ Slice sAddr in
          _ <- wrap (conn_Write authReq)
             (fun err => "send " +++ reqType +++ " request failed: " +++ err) ;;
          '(n, authRes) <- wrap (conn_Read 4)
             (fun err => "receive " +++ reqType +++ " response failed: " +++ err) ;;
          if n <? 4 then fail (reqType +++ " response too short")
          else if negb (Z_of_byte (at_ authRes 0) =? Version5) then
            fail ("unsupported " +++ reqType +++ " response version: "
                  +++ itoa (Z_of_byte (at_ negoReq 0)))
          else if negb (Z_of_byte (at_ authRes 1) =? AuthSuccessed) then
            fail (reqType +++ " failed: "
                  +++ handleAssociateStatus (at_ authRes 1))
          else if negb (Z_of_byte (at_ authRes 2) =? Reversed) then
            fail ("invalid " +++ reqType +++ " response reserved byte: "
                  +++ itoa (Z_of_byte (at_ authRes 2)))
          else
            bindAddr <- readBindAddr (at_ authRes 3) ;;
            if String.eqb network "tcp" then ret (StreamConn conn)
            else
              c <- dial "udp" (SocksAddr_String bindAddr) ;;
              if negb (is_packet_conn c) then fail "not a packet conn"
              else if negb (is_udp_conn c) then fail "not a udp conn"
              else
                let dest :=
                  if negb (netip.IsUnspecified (addr sAddr))
                     && negb (port sAddr =? 0)
                  then Some sAddr else None in
                ret (PacketConn (mkSocksPacketConn conn c 65535 dest))
      end.

End Dialer.

(** ** Rendering as network endpoints *)

Module net.

(** [net.UDPAddr]. *)
Record UDPAddr : Type := mkUDPAddr {
  IP : list byte;
  Port : Z;
  Zone : string
}.

(** [net.UDPAddrFromAddrPort]. *)
Definition UDPAddrFromAddrPort (ap : netip.AddrPort) : UDPAddr :=
  mkUDPAddr (netip.AsSlice (netip.ip ap)) (netip.port ap)
    (netip.Zone (netip.ip ap)).

End net.

(** [type UDPFqdnAddr string] with its two methods. *)
Definition UDPFqdnAddr : Type := string.

Definition UDPFqdnAddr_Network (f : UDPFqdnAddr) : string := "udp".

Definition UDPFqdnAddr_String (f : UDPFqdnAddr) : string := f.

(** The [net.Addr] values [NetAddr] returns: a UDP address or a name. *)
Inductive NetAddrValue : Type :=
| OfUDPAddr (u : net.UDPAddr)
| OfUDPFqdnAddr (f : UDPFqdnAddr).

Section Endpoints.

Variable Addr_String : netip.Addr -> string.

Definition NetAddr (s : SocksAddr) : NetAddrValue :=
  if len (fqdn s) =? 0 then
    OfUDPAddr (net.UDPAddrFromAddrPort (netip.AddrPortFrom (addr s) (port s)))
  else
    OfUDPFqdnAddr (SocksAddr_String Addr_String s).

End Endpoints.

Definition UDPAddr (s : SocksAddr) : result net.UDPAddr :=
  if len (fqdn s) =? 0 then
    Ok (net.UDPAddrFromAddrPort (netip.AddrPortFrom (addr s) (port s)))
  else
    Err "cannot convert fqdn socksaddr to an *net.UDPConn".

(** ** Package [net/netip]: parsing and printing

    A model of the textual side of the standard library, after its sources:
    [ParseAddrPort] ([splitAddrPort], [strconv.ParseUint], [ParseAddr] with
    [parseIPv4] and [parseIPv6]) and [Addr.String].  The dialer above takes
    these two functions as parameters; this module is the instance at which
    the model is run on concrete inputs. *)

Module netip_text.

(** [strconv.ParseUint(s, 10, 16)]: decimal digits only, at least one. *)
Definition ParseUint16 (s : string) : option Z :=
  match s with
  | EmptyString => None
  | _ =>
      match digits_value s 0 with
      | Some n => if n <=? 65535 then Some n else None
      | None => None
      end
  end.

(** The text before and after the last occurrence of [sep]. *)
Fixpoint LastCut (s : string) (sep : ascii) : option (string * string) :=
  match s with
  | EmptyString => None
  | String c t =>
      match LastCut t sep with
      | Some (a, b) => Some (String c a, b)
      | None => if Ascii.eqb c sep then Some (EmptyString, t) else None
      end
  end.

(** [s[1 : len(s)-1]] when [s] is at least two bytes, opens with a left
    bracket and closes with a right bracket. *)
Fixpoint drop_closing (s : string) : option string :=
  match s with
  | EmptyString => None
  | String c EmptyString => if Ascii.eqb c "]" then Some EmptyString else None
  | String c t =>
      match drop_closing t with
      | Some t' => Some (String c t')
      | None => None
      end
  end.

Definition unbracket (s : string) : option string :=
  match s with
  | String c t => if Ascii.eqb c "[" then drop_closing t else None
  | EmptyString => None
  end.

(** [splitAddrPort]: the address text, the port text and whether the
    address was bracketed. *)
Definition splitAddrPort (s : string) : option (string * string * bool) :=
  match LastCut s ":" with
  | None => None
  | Some (ip, port) =>
      if len ip =? 0 then None
      else if len port =? 0 then None
      else match unbracket ip with
           | Some inner => Some (inner, port, true)
           | None => Some (ip, port, false)
           end
  end.

(** The loop of [parseIPv4]; [pos] is the length of [fields]. *)
Fixpoint parseIPv4_loop (s : string) (first prevDot : bool) (val digLen : Z)
    (fields : list byte) : option (list byte) :=
  match s with
  | EmptyString =>
      if (List.length fields <? 3)%nat then None
      else Some (fields ++ [byte_of_Z val])
  | String c t =>
      if is_digit c then
        if (digLen =? 1) && (val =? 0) then None
        else
          let val' := val * 10 + (Z_of_byte c - 48) in
          if val' >? 255 then None
          else parseIPv4_loop t false false val' (digLen + 1) fields
      else if Ascii.eqb c "." then
        if first || (len t =? 0) || prevDot then None
        else if (List.length fields =? 3)%nat then None
        else parseIPv4_loop t false true 0 0 (fields ++ [byte_of_Z val])
      else None
  end.

Definition parseIPv4 (s : string) : option (list byte) :=
  parseIPv4_loop s true false 0 0 [].

Definition hexval (c : ascii) : option Z :=
  let n := Z_of_byte c in
  if (48 <=? n) && (n <=? 57) then Some (n - 48)
  else if (97 <=? n) && (n <=? 102) then Some (n - 97 + 10)
  else if (65 <=? n) && (n <=? 70) then Some (n - 65 + 10)
  else None.

(** The hexadecimal group scan of [parseIPv6]: the number of digits, their
    value and the rest; [None] when a group has more than four digits. *)
Fixpoint scan_hex (s : string) (off : nat) (acc : Z)
    : option (nat * Z * string) :=
  match s with
  | EmptyString => Some (off, acc, s)
  | String c t =>
      match hexval c with
      | None => Some (off, acc, s)
      | Some d =>
          let acc' := acc * 16 + d in
          if (3 <? off)%nat then None
          else if acc' >? 65535 then None
          else scan_hex t (S off) acc'
      end
  end.

Definition starts_with (c : ascii) (s : string) : bool :=
  match s with String c' _ => Ascii.eqb c' c | EmptyString => false end.

(** The main loop of [parseIPv6], one round per group; [i] is the length of
    [ip], [fuel] the number of groups that still fit.  It yields the unread
    text, the bytes so far and the position of the ellipsis. *)
Fixpoint parseIPv6_loop (fuel : nat) (s : string) (ip : list byte)
    (ellipsis : option nat) : option (string * list byte * option nat) :=
  match fuel with
  | O => Some (s, ip, ellipsis)
  | S fuel' =>
      match scan_hex s 0 0 with
      | None => None
      | Some (off, acc, rest) =>
          if (off =? 0)%nat then None
          else if starts_with "." rest then
            if (match ellipsis with None => true | Some _ => false end)
               && negb (List.length ip =? 12)%nat then None
            else if (16 <? List.length ip + 4)%nat then None
            else match parseIPv4 s with
                 | None => None
                 | Some ip4 => Some (EmptyString, ip ++ ip4, ellipsis)
                 end
          else
            let ip' := ip ++ [byte_of_Z (Z.shiftr acc 8); byte_of_Z acc] in
            match rest with
            | EmptyString => Some (EmptyString, ip', ellipsis)
            | String c t =>
                if negb (Ascii.eqb c ":") then None
                else
                  match t with
                  | EmptyString => None
                  | String c2 t2 =>
                      if Ascii.eqb c2 ":" then
                        match ellipsis with
                        | Some _ => None
                        | None =>
                            match t2 with
                            | EmptyString =>
                                Some (EmptyString, ip', Some (List.length ip'))
                            | _ =>
                                parseIPv6_loop fuel' t2 ip'
                                  (Some (List.length ip'))
                            end
                        end
                      else parseIPv6_loop fuel' t ip' ellipsis
                  end
            end
      end
  end.

Definition from16 (ip : list byte) (zone : string) : option netip.Addr :=
  match netip.AddrFromSlice ip with
  | Some a => Some (netip.WithZone a zone)
  | None => None
  end.

Definition parseIPv6 (input : string) : option netip.Addr :=
  let split :=
    match Cut input "%" with
    | Some (s, zone) => if len zone =? 0 then None else Some (s, zone)
    | None => Some (input, EmptyString)
    end in
  match split with
  | None => None
  | Some (s, zone) =>
      let lead :=
        match s with
        | String c1 (String c2 t) =>
            if Ascii.eqb c1 ":" && Ascii.eqb c2 ":" then Some t else None
        | _ => None
        end in
      match lead with
      | Some EmptyString => from16 (make_bytes 16) zone
      | _ =>
          let s0 := match lead with Some t => t | None => s end in
          let e0 := match lead with Some _ => Some O | None => None end in
          match parseIPv6_loop 8 s0 [] e0 with
          | None => None
          | Some (rest, ip, ellipsis) =>
              if negb (len rest =? 0) then None
              else if (List.length ip <? 16)%nat then
                match ellipsis with
                | None => None
                | Some e =>
                    from16 (firstn e ip ++ make_bytes (16 - List.length ip)
                              ++ skipn e ip) zone
                end
              else
                match ellipsis with
                | Some _ => None
                | None => from16 ip zone
                end
          end
      end
  end.

(** The first of ['.'], [':'] and ['%'] in the text decides the parser. *)
Fixpoint first_mark (s : string) : option ascii :=
  match s with
  | EmptyString => None
  | String c t =>
      if Ascii.eqb c "." || Ascii.eqb c ":" || Ascii.eqb c "%" then Some c
      else first_mark t
  end.

Definition ParseAddr (s : string) : option netip.Addr :=
  match first_mark s with
  | Some c =>
      if Ascii.eqb c "." then
        match parseIPv4 s with
        | Some b => netip.AddrFromSlice b
        | None => None
        end
      else if Ascii.eqb c ":" then parseIPv6 s
      else None
  | None => None
  end.

Definition ParseAddrPort (s : string) : result netip.AddrPort :=
  match splitAddrPort s with
  | None => Err "not an ip:port"
  | Some (ip, port, v6) =>
      match ParseUint16 port with
      | None => Err "invalid port"
      | Some port16 =>
          match ParseAddr ip with
          | None => Err "invalid ip"
          | Some a =>
              if v6 && netip.Is4 a then Err "invalid ip:port"
              else if negb v6 && netip.Is6 a then Err "invalid ip:port"
              else Ok (netip.AddrPortFrom a port16)
          end
      end
  end.

Definition string4 (a0 a1 a2 a3 : byte) : string :=
  itoa (Z_of_byte a0) +++ "." +++ itoa (Z_of_byte a1) +++ "."
  +++ itoa (Z_of_byte a2) +++ "." +++ itoa (Z_of_byte a3).

Definition hexdigit (n : Z) : string :=
  String (nth (Z.to_nat n) (list_ascii_of_string "0123456789abcdef") "0"%char)
    EmptyString.

(** [appendHex]: lower-case hexadecimal without leading zeros. *)
Definition appendHex (x : Z) : string :=
  (if x >=? 4096 then hexdigit (Z.shiftr x 12) else EmptyString)
  +++ (if x >=? 256 then hexdigit (Z.land (Z.shiftr x 8) 15) else EmptyString)
  +++ (if x >=? 16 then hexdigit (Z.land (Z.shiftr x 4) 15) else EmptyString)
  +++ hexdigit (Z.land x 15).

(** The eight 16-bit groups of sixteen bytes. *)
Fixpoint groups (b : list byte) : list Z :=
  match b with
  | hi :: lo :: t => (Z_of_byte hi * 256 + Z_of_byte lo) :: groups t
  | _ => []
  end.

Fixpoint zero_run (gs : list Z) : nat :=
  match gs with
  | 0 :: t => S (zero_run t)
  | _ => O
  end.

(** The first longest run of at least two zero groups, as
    [(zeroStart, zeroEnd)]; [(255, 255)] when there is none. *)
Fixpoint longest_zeros (gs : list Z) (i : nat) (best : nat * nat)
    : nat * nat :=
  match gs with
  | [] => best
  | _ :: t =>
      let l := zero_run gs in
      let best' :=
        if ((2 <=? l) && (snd best - fst best <? l))%nat then (i, (i + l)%nat)
        else best in
      longest_zeros t (S i) best'
  end.

(** The printing loop of [appendTo6]. *)
Fixpoint string6_loop (fuel i : nat) (gs : list Z) (zs : nat * nat)
    : string :=
  match fuel with
  | O => EmptyString
  | S fuel' =>
      if (8 <=? i)%nat then EmptyString
      else if (i =? fst zs)%nat then
        "::" +++
        (if (8 <=? snd zs)%nat then EmptyString
         else appendHex (nth (snd zs) gs 0)
              +++ string6_loop fuel' (S (snd zs)) gs zs)
      else
        (if (0 <? i)%nat then ":" else EmptyString)
        +++ appendHex (nth i gs 0) +++ string6_loop fuel' (S i) gs zs
  end.

Definition zone_suffix (zone : string) : string :=
  if len zone =? 0 then EmptyString else "%" +++ zone.

(** [netip.Addr.String]. *)
Definition Addr_String (a : netip.Addr) : string :=
  match a with
  | netip.Zero => "invalid IP"
  | netip.V4 a0 a1 a2 a3 => string4 a0 a1 a2 a3
  | netip.V6 _ _ _ _ _ _ _ _ _ _ _ _ a12 a13 a14 a15 zone =>
      if netip.Is4In6 a then
        "::ffff:" +++ string4 a12 a13 a14 a15 +++ zone_suffix zone
      else
        let gs := groups (netip.AsSlice a) in
        string6_loop 8 0 gs (longest_zeros gs 0 (255%nat, 255%nat))
        +++ zone_suffix zone
  end.

End netip_text.

(** ** Notions used to state the properties *)

(** The text before and the text after the first colon. *)
Definition host_part (s : string) : string :=
  match Cut s ":" with Some (h, _) => h | None => s end.

Definition port_part (s : string) : string :=
  match Cut s ":" with Some (_, p) => p | None => EmptyString end.

(** The wire layout of an encoded address as the specification words it: a
    tag, a body of the size the tag announces (four bytes, a length byte
    with that many name bytes, sixteen bytes), and two bytes of port. *)
Definition wire_layout (b : list byte) : bool :=
  match b with
  | tag :: rest =>
      if Z_of_byte tag =? 1 then (List.length rest =? 4 + 2)%nat
      else if Z_of_byte tag =? 3 then
        match rest with
        | l :: name_port =>
            (List.length name_port =? Z.to_nat (Z_of_byte l) + 2)%nat
        | [] => false
        end
      else if Z_of_byte tag =? 4 then (List.length rest =? 16 + 2)%nat
      else false
  | [] => false
  end.

(** A control connection on which nothing was dialled or written yet and
    on which the proxy delivers [bs] in one segment. *)
Definition delivering (bs : list byte) : world := mkWorld [] [] [Data bs] [].

(** Decoding an encoded address the way the reply parser does: the first
    byte is the type byte of the reply header, the rest is read off the
    control connection. *)
Definition decodeByType (b : list byte) : result SocksAddr :=
  match b with
  | atyp :: rest => fst (readBindAddr atyp (delivering rest))
  | [] => Err "empty encoding"
  end.

(** The port as two big-endian bytes. *)
Definition be16 (p : Z) : list byte := [byte_of_Z (p / 256); byte_of_Z (p mod 256)].

(** A name of [n] bytes. *)
Definition long_name (n : nat) : string := string_of_bytes (repeat "a"%char n).

(** The address [::ffff:1.2.3.4]. *)
Definition mapped_1_2_3_4 : netip.Addr :=
  netip.V6 (byte_of_Z 0) (byte_of_Z 0) (byte_of_Z 0) (byte_of_Z 0)
           (byte_of_Z 0) (byte_of_Z 0) (byte_of_Z 0) (byte_of_Z 0)
           (byte_of_Z 0) (byte_of_Z 0) (byte_of_Z 255) (byte_of_Z 255)
           (byte_of_Z 1) (byte_of_Z 2) (byte_of_Z 3) (byte_of_Z 4) EmptyString.

Definition ip_1_2_3_4 : netip.Addr :=
  netip.V4 (byte_of_Z 1) (byte_of_Z 2) (byte_of_Z 3) (byte_of_Z 4).

(** The status table as the specification lists it; a code outside the
    table renders as "unassigned". *)
Definition status_table : list (Z * string) :=
  [ (1, "associate failed: general socks server failure");
    (2, "connection not allowed by ruleset");
    (3, "network unreachable");
    (4, "host unreachable");
    (5, "connection refused");
    (6, "ttl expired");
    (7, "command not supported");
    (8, "address type not supported");
    (9, "host unreachable") ].

Definition status_reason (code : Z) : string :=
  match find (fun e => fst e =? code) status_table with
  | Some e => snd e
  | None => "unassigned"
  end.

(** The request kind named in the error messages. *)
Definition reqType_of (network : string) : string :=
  if String.eqb network "tcp" then "connect" else "associate".

(** The proxy [127.0.0.1:1080] and the instance of the dialer at the
    textual functions of [netip_text]. *)
Definition proxy : SocksDialer :=
  mkSocksDialer
    (mkSocksAddr
       (netip.V4 (byte_of_Z 127) (byte_of_Z 0) (byte_of_Z 0) (byte_of_Z 1))
       EmptyString 1080).

Definition parse : string -> result SocksAddr :=
  ParseSocksAddr netip_text.ParseAddrPort.

Definition dialContext : SocksDialer -> string -> string -> IO Conn :=
  DialContext netip_text.ParseAddrPort netip_text.Addr_String.

(** A world in which every dial and write succeeds and the proxy sends the
    given segments. *)
Definition proxy_sends (segments : list (list byte)) : world :=
  mkWorld [] [] (map Data segments) [].

Definition bytes (l : list Z) : list byte := map byte_of_Z l.

(** A [SocksAddr] that [Slice] encodes in one of the three wire forms: its
    port is a [uint16], and it holds a domain name of 1 to 255 bytes, or no
    name and a valid address. *)
Definition encodable (s : SocksAddr) : Prop :=
  0 <= port s < 65536
  /\ (0 < len (fqdn s) <= 255
      \/ (fqdn s = EmptyString /\ netip.IsValid (addr s) = true)).

(** What the by-type decoder rebuilds from the encoding of [s]: the name
    alone when there is one, else the address without zone, unmapped. *)
Definition decoded (s : SocksAddr) : SocksAddr :=
  if len (fqdn s) >? 0 then mkSocksAddr netip.Zero (fqdn s) (port s)
  else mkSocksAddr (netip.Unmap (netip.WithZone (addr s) EmptyString))
         EmptyString (port s).

(** The reads the decoder performs on the encoding of [s]. *)
Definition reads_of (s : SocksAddr) : list event :=
  if len (fqdn s) >? 0 then
    [EvRead 1; EvRead (String.length (fqdn s)); EvRead 2]
  else if netip.Is4 (addr s) then [EvRead 4; EvRead 2]
  else [EvRead 16; EvRead 2].

(** What is left of a segment after a read took its front. *)
Definition remaining (tail : list byte) (rest : list delivery)
  : list delivery :=
  match tail with
  | [] => rest
  | _ => Data tail :: rest
  end.



(** The command byte of the request. *)
Definition cmd_of (network : string) : Z :=
  if String.eqb network "tcp" then CMDCONNECT else CMDASSOCIATE.

(** The first two messages the negotiator writes. *)
Definition negoReq : list byte :=
  [byte_of_Z Version5; byte_of_Z 1; byte_of_Z MethodNoAuth].

Definition authReq (network : string) (sAddr : SocksAddr) : list byte :=
  [byte_of_Z Version5; byte_of_Z (cmd_of network); byte_of_Z Reversed]
    ++ Slice sAddr.



(** ** Bytes and integers *)

Lemma Z_of_byte_range (b : byte) : 0 <= Z_of_byte b < 256.
Proof.
  unfold Z_of_byte. pose proof (N_ascii_bounded b). lia.
Qed.

Lemma Z_of_byte_of_Z (n : Z) : Z_of_byte (byte_of_Z n) = n mod 256.
Proof.
  unfold Z_of_byte, byte_of_Z.
  assert (0 <= n mod 256 < 256) by (apply Z.mod_pos_bound; lia).
  rewrite N_ascii_embedding by lia.
  rewrite Z2N.id; lia.
Qed.

Lemma byte_of_Z_of_byte (b : byte) : byte_of_Z (Z_of_byte b) = b.
Proof.
  unfold byte_of_Z. pose proof (Z_of_byte_range b).
  rewrite Z.mod_small by lia.
  unfold Z_of_byte. rewrite N2Z.id. apply ascii_N_embedding.
Qed.

Lemma Z_of_byte_small (n : Z) : 0 <= n < 256 -> Z_of_byte (byte_of_Z n) = n.
Proof.
  intros. rewrite Z_of_byte_of_Z. apply Z.mod_small; lia.
Qed.

Lemma byte_of_Z_mod (n : Z) : byte_of_Z (n mod 256) = byte_of_Z n.
Proof.
  unfold byte_of_Z. rewrite Z.mod_mod by lia. reflexivity.
Qed.

Lemma shiftr8 (p : Z) : Z.shiftr p 8 = p / 256.
Proof.
  rewrite Z.shiftr_div_pow2 by lia. reflexivity.
Qed.

Lemma AppendUint16_be16 (b : list byte) (p : Z) :
  AppendUint16 b p = b ++ be16 p.
Proof.
  unfold AppendUint16, be16. now rewrite shiftr8, byte_of_Z_mod.
Qed.

Lemma lor_shift_add (lo hi : Z) :
  0 <= lo < 256 -> 0 <= hi -> Z.lor lo (Z.shiftl hi 8) = hi * 256 + lo.
Proof.
  intros Hlo Hhi.
  rewrite Z.shiftl_mul_pow2 by lia.
  change (2 ^ 8) with 256.
  assert (Hland : Z.land lo (hi * 256) = 0).
  { apply Z.bits_inj'. intros n Hn.
    rewrite Z.land_spec, Z.bits_0.
    destruct (Z.ltb_spec n 8).
    - replace (hi * 256) with (hi * 2 ^ 8) by reflexivity.
      rewrite Z.mul_pow2_bits_low by lia. apply andb_false_r.
    - rewrite (Z.bits_above_log2 lo n); [reflexivity | lia |].
      destruct (Z.eq_dec lo 0) as [->|]; [simpl; lia|].
      apply Z.log2_lt_pow2; [lia|].
      apply Z.lt_le_trans with (2 ^ 8); [simpl; lia|].
      apply Z.pow_le_mono_r; lia. }
  pose proof (Z.add_lor_land lo (hi * 256)). lia.
Qed.

Lemma Uint16_be16 (p : Z) : 0 <= p < 65536 -> Uint16 (be16 p) = p.
Proof.
  intros Hp. unfold Uint16, be16, at_. cbn [nth].
  assert (Hhi : 0 <= p / 256 < 256).
  { split; [apply Z.div_pos; lia | apply Z.div_lt_upper_bound; lia]. }
  assert (Hlo : 0 <= p mod 256 < 256) by (apply Z.mod_pos_bound; lia).
  rewrite (Z_of_byte_small (p / 256) Hhi), (Z_of_byte_small (p mod 256) Hlo).
  rewrite lor_shift_add by lia.
  pose proof (Z.div_mod p 256). lia.
Qed.

Lemma blen_bytes_of_string (s : string) : blen (bytes_of_string s) = len s.
Proof.
  unfold blen, len, bytes_of_string. f_equal.
  induction s as [|c s IH]; simpl; congruence.
Qed.

Lemma len_nonneg (s : string) : 0 <= len s.
Proof. unfold len. lia. Qed.

Lemma len_zero_iff (s : string) : len s = 0 <-> s = EmptyString.
Proof.
  unfold len. destruct s; simpl; split; intros; try reflexivity;
    try discriminate; lia.
Qed.

(** ** The address codec: encoding *)

Lemma Unmap_not_mapped (a : netip.Addr) :
  netip.Is4In6 (netip.Unmap a) = false.
Proof.
  destruct a; try reflexivity.
  unfold netip.Unmap.
  match goal with |- context [if ?c then _ else _] => destruct c eqn:E end;
    [reflexivity | exact E].
Qed.

Lemma Unmap_id (a : netip.Addr) :
  netip.Is4In6 a = false -> netip.Unmap a = a.
Proof.
  destruct a; try reflexivity.
  unfold netip.Unmap. intros ->. reflexivity.
Qed.

Lemma SetAddr_addr (s : SocksAddr) (a : netip.Addr) :
  SetAddr s a = mkSocksAddr (netip.Unmap a) (fqdn s) (port s).
Proof.
  unfold SetAddr. destruct (netip.Is4In6 a) eqn:E; [reflexivity|].
  now rewrite Unmap_id.
Qed.

(** [SetAddr] stores every address unmapped. *)
Lemma SetAddr_unmapped (s : SocksAddr) (a : netip.Addr) :
  netip.Is4In6 (addr (SetAddr s a)) = false.
Proof.
  rewrite SetAddr_addr. apply Unmap_not_mapped.
Qed.

Lemma Slice_fqdn (s : SocksAddr) :
  0 < len (fqdn s) ->
  Slice s = byte_of_Z TypeFqdn :: byte_of_Z (len (fqdn s))
              :: bytes_of_string (fqdn s) ++ be16 (port s).
Proof.
  intros H. unfold Slice.
  destruct (Z.gtb_spec (len (fqdn s)) 0); [|lia].
  rewrite AppendUint16_be16, blen_bytes_of_string. reflexivity.
Qed.

Lemma Slice_addr (s : SocksAddr) :
  fqdn s = EmptyString ->
  Slice s = byte_of_Z (if netip.Is4 (addr s) then TypeIPv4 else TypeIPv6)
              :: netip.AsSlice (addr s) ++ be16 (port s).
Proof.
  intros H. unfold Slice. rewrite H. cbn [len String.length Z.of_nat Z.gtb Z.compare].
  rewrite AppendUint16_be16. destruct (netip.Is4 (addr s)); reflexivity.
Qed.

Lemma be16_value (p : Z) :
  0 <= p < 65536 ->
  Z_of_byte (byte_of_Z (p / 256)) * 256 + Z_of_byte (byte_of_Z (p mod 256)) = p.
Proof.
  intros Hp.
  assert (0 <= p / 256 < 256).
  { split; [apply Z.div_pos; lia | apply Z.div_lt_upper_bound; lia]. }
  assert (0 <= p mod 256 < 256) by (apply Z.mod_pos_bound; lia).
  rewrite !Z_of_byte_small by assumption.
  pose proof (Z.div_mod p 256). lia.
Qed.

(** C2, as amended.  For every [SocksAddr] that holds a non-empty domain
    name of at most 255 bytes, or no domain name and a valid address,
    [Slice] yields a tag byte, the body and the port in two big-endian
    bytes.  With a name the tag is 3 and the body is a length byte equal to
    the number of name bytes, followed by the name; with an IPv4 address
    the tag is 1 and the body is its 4 bytes; with an IPv6 address the tag
    is 4 and the body is its 16 bytes. *)
Theorem Slice_layout (s : SocksAddr) :
  0 <= port s < 65536 ->
  0 < len (fqdn s) <= 255
  \/ (fqdn s = EmptyString /\ netip.IsValid (addr s) = true) ->
  exists tag body hi lo,
    Slice s = tag :: body ++ [hi; lo]
    /\ Z_of_byte hi * 256 + Z_of_byte lo = port s
    /\ wire_layout (Slice s) = true
    /\ (0 < len (fqdn s) ->
        Z_of_byte tag = 3
        /\ exists l, body = l :: bytes_of_string (fqdn s)
                     /\ Z_of_byte l = blen (bytes_of_string (fqdn s)))
    /\ (fqdn s = EmptyString -> netip.Is4 (addr s) = true ->
        Z_of_byte tag = 1 /\ body = netip.AsSlice (addr s) /\ blen body = 4)
    /\ (fqdn s = EmptyString -> netip.Is6 (addr s) = true ->
        Z_of_byte tag = 4 /\ body = netip.AsSlice (addr s) /\ blen body = 16).
Proof.
  intros Hp [Hname | [Hempty Hvalid]].
  - exists (byte_of_Z TypeFqdn),
      (byte_of_Z (len (fqdn s)) :: bytes_of_string (fqdn s)),
      (byte_of_Z (port s / 256)), (byte_of_Z (port s mod 256)).
    assert (Hl : Z_of_byte (byte_of_Z (len (fqdn s))) = len (fqdn s))
      by (apply Z_of_byte_small; lia).
    rewrite Slice_fqdn by lia.
    split; [reflexivity|]. split; [now apply be16_value|].
    split.
    { unfold wire_layout. cbn [be16 app].
      change (Z_of_byte (byte_of_Z TypeFqdn) =? 1) with false.
      change (Z_of_byte (byte_of_Z TypeFqdn) =? 3) with true.
      cbn iota. rewrite Hl, length_app. cbn [List.length].
      apply Nat.eqb_eq. f_equal.
      pose proof (blen_bytes_of_string (fqdn s)) as Hb.
      unfold blen in Hb. rewrite <- Hb. now rewrite Nat2Z.id. }
    split; [|split].
    + intros _. split; [reflexivity|].
      eexists. split; [reflexivity|]. now rewrite blen_bytes_of_string.
    + intros E. rewrite E in Hname. cbn in Hname. lia.
    + intros E. rewrite E in Hname. cbn in Hname. lia.
  - exists (byte_of_Z (if netip.Is4 (addr s) then TypeIPv4 else TypeIPv6)),
      (netip.AsSlice (addr s)),
      (byte_of_Z (port s / 256)), (byte_of_Z (port s mod 256)).
    rewrite Slice_addr by assumption.
    split; [reflexivity|]. split; [now apply be16_value|].
    split.
    { destruct (addr s); [discriminate Hvalid | reflexivity | reflexivity]. }
    split; [|split].
    + intros H. rewrite Hempty in H. cbn in H. lia.
    + intros _ H4. rewrite H4.
      destruct (addr s); try discriminate H4. repeat split.
    + intros _ H6.
      destruct (addr s); try discriminate H6. repeat split.
Qed.

(** C9, as amended.  Whenever a non-empty domain name has been set, [Slice]
    encodes the name, whether the address was set before or after it; the
    resolved address (stored unmapped) is encoded only while the name is
    empty. *)
Theorem Slice_prefers_fqdn (s : SocksAddr) (a : netip.Addr) (name : string) :
  0 < len name ->
  Slice (SetAddr (SetFqdn s name) a) = Slice (SetFqdn s name)
  /\ Slice (SetFqdn (SetAddr s a) name) = Slice (SetFqdn s name)
  /\ Slice (SetFqdn s name)
     = byte_of_Z TypeFqdn :: byte_of_Z (len name)
         :: bytes_of_string name ++ be16 (port s)
  /\ Slice (SetAddr (SetFqdn s EmptyString) a)
     = byte_of_Z (if netip.Is4 (netip.Unmap a) then TypeIPv4 else TypeIPv6)
         :: netip.AsSlice (netip.Unmap a) ++ be16 (port s).
Proof.
  intros H. rewrite !SetAddr_addr.
  repeat split.
  - rewrite !Slice_fqdn by exact H. reflexivity.
  - rewrite !Slice_fqdn by exact H. reflexivity.
  - now rewrite Slice_fqdn by exact H.
  - now rewrite Slice_addr by reflexivity.
Qed.

(** C10.  For a domain name of more than 255 bytes given to
    [SocksAddrFromFqdnPort], [Slice] emits the length byte [L mod 256],
    which differs from the number [L] of name bytes that follow it. *)
Theorem Slice_long_fqdn_length_wraps (name : string) (p : Z) :
  len name > 255 ->
  exists l,
    Slice (SocksAddrFromFqdnPort name p)
    = byte_of_Z TypeFqdn :: l :: bytes_of_string name ++ be16 p
    /\ Z_of_byte l = len name mod 256
    /\ blen (bytes_of_string name) = len name
    /\ Z_of_byte l <> blen (bytes_of_string name).
Proof.
  intros H. exists (byte_of_Z (len name)).
  split; [|split; [|split]].
  - apply (Slice_fqdn (SocksAddrFromFqdnPort name p)). cbn [fqdn SocksAddrFromFqdnPort]. lia.
  - apply Z_of_byte_of_Z.
  - apply blen_bytes_of_string.
  - rewrite blen_bytes_of_string.
    pose proof (Z_of_byte_range (byte_of_Z (len name))). lia.
Qed.

(** ** The monad *)

Lemma bind_ok {A B} (c : IO A) (k : A -> IO B) (w w' : world) (a : A) :
  c w = (Ok a, w') -> bind c k w = k a w'.
Proof. intros H. unfold bind. now rewrite H. Qed.

Lemma bind_err {A B} (c : IO A) (k : A -> IO B) (w w' : world) (e : error) :
  c w = (Err e, w') -> bind c k w = (Err e, w').
Proof. intros H. unfold bind. now rewrite H. Qed.

Lemma wrap_ok {A} (c : IO A) (f : error -> error) (w w' : world) (a : A) :
  c w = (Ok a, w') -> wrap c f w = (Ok a, w').
Proof. intros H. unfold wrap. now rewrite H. Qed.

Lemma wrap_err {A} (c : IO A) (f : error -> error) (w w' : world) (e : error) :
  c w = (Err e, w') -> wrap c f w = (Err (f e), w').
Proof. intros H. unfold wrap. now rewrite H. Qed.

(** ** The control connection: reading a whole field *)

Lemma conn_Read_field (pre post : list byte) (rest : list delivery) (w : world) :
  inbound w = Data (pre ++ post) :: rest ->
  pre <> [] ->
  conn_Read (List.length pre) w
  = (Ok (blen pre, pre),
     mkWorld (dials w) (writes w)
       (match post with [] => rest | _ => Data post :: rest end)
       (logged w (EvRead (List.length pre)))).
Proof.
  intros Hin Hne. unfold conn_Read. rewrite Hin.
  destruct pre as [|b pre]; [congruence|].
  cbv zeta.
  cbn [List.length].
  rewrite firstn_app, skipn_app.
  replace (firstn (S (List.length pre)) (b :: pre)) with (b :: pre)
    by (symmetry; apply (firstn_all (b :: pre))).
  replace (skipn (S (List.length pre)) (b :: pre)) with (@nil byte)
    by (symmetry; apply (skipn_all (b :: pre))).
  replace (S (List.length pre) - List.length (b :: pre))%nat with O
    by (cbn [List.length]; lia).
  cbn [firstn skipn app].
  rewrite app_nil_r.
  replace (S (List.length pre) - List.length (b :: pre))%nat with O
    by (cbn [List.length]; lia).
  cbn [make_bytes repeat]. rewrite app_nil_r.
  reflexivity.
Qed.

(** ** The by-type decoder on a well-formed encoding *)

Lemma readBindAddr_ipv4 (a0 a1 a2 a3 hi lo : byte) :
  fst (readBindAddr (byte_of_Z TypeIPv4) (delivering [a0; a1; a2; a3; hi; lo]))
  = Ok (mkSocksAddr (netip.V4 a0 a1 a2 a3) EmptyString (Uint16 [hi; lo])).
Proof. reflexivity. Qed.

Lemma readBindAddr_ipv6
    (a0 a1 a2 a3 a4 a5 a6 a7 a8 a9 a10 a11 a12 a13 a14 a15 hi lo : byte) :
  fst (readBindAddr (byte_of_Z TypeIPv6)
         (delivering [a0; a1; a2; a3; a4; a5; a6; a7; a8; a9; a10; a11;
                      a12; a13; a14; a15; hi; lo]))
  = Ok (SetPort
          (SetAddr zeroSocksAddr
             (netip.V6 a0 a1 a2 a3 a4 a5 a6 a7 a8 a9 a10 a11 a12 a13 a14 a15 EmptyString))
          (Uint16 [hi; lo])).
Proof.
  unfold readBindAddr, bind, wrap.
  change (Z_of_byte (byte_of_Z TypeIPv6) =? TypeIPv4) with false.
  change (Z_of_byte (byte_of_Z TypeIPv6) =? TypeFqdn) with false.
  change (Z_of_byte (byte_of_Z TypeIPv6) =? TypeIPv6) with true.
  cbn -[SetAddr Uint16 SetPort Z.ltb].
  reflexivity.
Qed.

Lemma readBindAddr_fqdn (name : list byte) (hi lo : byte) :
  0 < blen name <= 255 ->
  fst (readBindAddr (byte_of_Z TypeFqdn)
         (delivering (byte_of_Z (blen name) :: name ++ [hi; lo])))
  = Ok (mkSocksAddr netip.Zero (string_of_bytes name) (Uint16 [hi; lo])).
Proof.
  intros Hlen.
  assert (Hl : Z.to_nat (Z_of_byte (byte_of_Z (blen name))) = List.length name).
  { rewrite Z_of_byte_small by lia. unfold blen. apply Nat2Z.id. }
  assert (Hv : Z_of_byte (byte_of_Z (blen name)) = blen name)
    by (apply Z_of_byte_small; lia).
  destruct name as [|c name]; [cbn in Hlen; lia|].
  set (l := byte_of_Z (blen (c :: name))) in *.
  unfold readBindAddr.
  change (Z_of_byte (byte_of_Z TypeFqdn) =? TypeIPv4) with false.
  change (Z_of_byte (byte_of_Z TypeFqdn) =? TypeFqdn) with true.
  cbv iota.
  erewrite bind_ok; cycle 1.
  { erewrite bind_ok; cycle 1.
    { apply wrap_ok.
      apply (conn_Read_field [l] ((c :: name) ++ [hi; lo]) []);
        [reflexivity | discriminate]. }
    cbv beta iota.
    change (blen [l] =? 0) with false. cbv iota.
    change (at_ [l] 0) with l.
    rewrite Hl.
    erewrite bind_ok; cycle 1.
    { apply wrap_ok.
      apply (conn_Read_field (c :: name) [hi; lo] []);
        [reflexivity | discriminate]. }
    cbv beta iota. rewrite Hv, Z.ltb_irrefl.
    reflexivity. }
  erewrite bind_ok; cycle 1.
  { apply wrap_ok.
    apply (conn_Read_field [hi; lo] [] []); [reflexivity | discriminate]. }
  reflexivity.
Qed.

(** A declared length of 0 passes the decoder: whatever the port bytes,
    the bound address is decoded with an empty domain name. *)
Lemma readBindAddr_fqdn_zero_length
    (w : world) (l hi lo : byte) (tail : list byte) (rest : list delivery) :
  inbound w = Data (l :: hi :: lo :: tail) :: rest ->
  Z_of_byte l = 0 ->
  fst (readBindAddr (byte_of_Z TypeFqdn) w)
  = Ok (mkSocksAddr netip.Zero EmptyString (Uint16 [hi; lo])).
Proof.
  intros Hin Hl.
  unfold readBindAddr.
  change (Z_of_byte (byte_of_Z TypeFqdn) =? TypeIPv4) with false.
  change (Z_of_byte (byte_of_Z TypeFqdn) =? TypeFqdn) with true.
  cbv iota.
  erewrite bind_ok; cycle 1.
  { erewrite bind_ok; cycle 1.
    { apply wrap_ok.
      apply (conn_Read_field [l] (hi :: lo :: tail) rest);
        [exact Hin | discriminate]. }
    cbv beta iota.
    change (blen [l] =? 0) with false. cbv iota.
    change (at_ [l] 0) with l.
    rewrite Hl. change (Z.to_nat 0) with O.
    erewrite bind_ok; [|apply wrap_ok; reflexivity].
    reflexivity. }
  erewrite bind_ok; cycle 1.
  { apply wrap_ok.
    apply (conn_Read_field [hi; lo] tail rest); [reflexivity | discriminate]. }
  reflexivity.
Qed.

(** ** The address codec: parsing *)

Lemma Contains_Cut (s : string) :
  Contains s ":" = true -> SplitN2 s ":" = [host_part s; port_part s].
Proof.
  unfold Contains, SplitN2, host_part, port_part.
  destruct (Cut s ":") as [[h p]|]; [reflexivity | discriminate].
Qed.

Section Parsing.

Variable ParseAddrPort : string -> result netip.AddrPort.

(** What an accepted text is parsed to. *)
Lemma ParseSocksAddr_Ok (s : string) (a : SocksAddr) :
  ParseSocksAddr ParseAddrPort s = Ok a ->
  (exists ap, ParseAddrPort s = Ok ap
              /\ a = mkSocksAddr (netip.Unmap (netip.ip ap)) EmptyString
                       (netip.port ap))
  \/ (is_err (ParseAddrPort s) = true
      /\ Contains s ":" = true
      /\ len (host_part s) <= 255
      /\ exists p, Atoi (port_part s) = Some p /\ 0 <= p <= 65535
                   /\ a = mkSocksAddr netip.Zero (host_part s) p).
Proof.
  unfold ParseSocksAddr.
  destruct (ParseAddrPort s) as [ap|e] eqn:E.
  - intros H. left. exists ap. split; [reflexivity|].
    destruct (netip.Is4In6 (netip.ip ap)) eqn:E4; inversion H; subst.
    + reflexivity.
    + now rewrite Unmap_id.
  - destruct (Contains s ":") eqn:EC; cbn [negb]; [|discriminate].
    rewrite (Contains_Cut _ EC).
    fold (host_part s). fold (port_part s).
    rewrite blen_bytes_of_string.
    destruct (Z.gtb_spec (len (host_part s)) 255); [discriminate|].
    destruct (Atoi (port_part s)) as [p|] eqn:EA; [|discriminate].
    destruct (Z.ltb_spec p 0); [discriminate|].
    destruct (Z.gtb_spec p 65535); [discriminate|].
    cbn [orb]. intros Heq. inversion Heq; subst. right.
    repeat split; try assumption; try lia.
    exists p. repeat split; try lia.
    unfold uint16_of_Z. rewrite Z.mod_small by lia. reflexivity.
Qed.

(** [ParseSocksAddr] stores every address unmapped. *)
Lemma ParseSocksAddr_unmapped (s : string) (a : SocksAddr) :
  ParseSocksAddr ParseAddrPort s = Ok a -> netip.Is4In6 (addr a) = false.
Proof.
  intros H. destruct (ParseSocksAddr_Ok s a H) as [(ap & _ & ->)|(_ & _ & _ & p & _ & _ & ->)].
  - apply Unmap_not_mapped.
  - reflexivity.
Qed.

(** C7.  [ParseSocksAddr] fails exactly when the text is not an ip:port
    literal and it has no colon, or its host part is longer than 255 bytes,
    or its port part is not an integer in [0, 65535]; otherwise it yields
    the (unmapped) address and port of the literal, or the host part as
    domain name with the port. *)
Theorem ParseSocksAddr_error_iff (s : string) :
  (is_err (ParseSocksAddr ParseAddrPort s) = true <->
   is_err (ParseAddrPort s) = true
   /\ (Contains s ":" = false
       \/ 255 < len (host_part s)
       \/ ~ (exists p, Atoi (port_part s) = Some p /\ 0 <= p <= 65535)))
  /\ (forall a, ParseSocksAddr ParseAddrPort s = Ok a ->
      (exists ap, ParseAddrPort s = Ok ap
                  /\ a = mkSocksAddr (netip.Unmap (netip.ip ap)) EmptyString
                           (netip.port ap))
      \/ (is_err (ParseAddrPort s) = true
          /\ exists p, Atoi (port_part s) = Some p /\ 0 <= p <= 65535
                       /\ a = mkSocksAddr netip.Zero (host_part s) p)).
Proof.
  split.
  - destruct (ParseSocksAddr ParseAddrPort s) as [a|e] eqn:EP.
    + split; [discriminate|].
      intros [HE Hbad]. exfalso.
      destruct (ParseSocksAddr_Ok s a EP) as [(ap & E & _)|(_ & HC & HL & p & HA & Hp & _)].
      * rewrite E in HE. discriminate.
      * destruct Hbad as [H|[H|H]]; [congruence | lia |].
        apply H. exists p. split; assumption.
    + split; [|reflexivity]. intros _.
      revert EP. unfold ParseSocksAddr.
      destruct (ParseAddrPort s) as [ap|e'] eqn:E.
      { destruct (netip.Is4In6 (netip.ip ap)); discriminate. }
      intros EP. split; [reflexivity|].
      destruct (Contains s ":") eqn:EC; [|now left]. right.
      cbn [negb] in EP. rewrite (Contains_Cut _ EC) in EP.
      fold (host_part s) in EP. fold (port_part s) in EP.
      rewrite blen_bytes_of_string in EP.
      destruct (Z.gtb_spec (len (host_part s)) 255); [left; lia|]. right.
      intros (p & HA & Hp). rewrite HA in EP.
      destruct (Z.ltb_spec p 0); [lia|].
      destruct (Z.gtb_spec p 65535); [lia|].
      discriminate EP.
  - intros a H.
    destruct (ParseSocksAddr_Ok s a H) as [Hip|(HE & _ & _ & p & HA & Hp & ->)].
    + now left.
    + right. split; [assumption|]. exists p. repeat split; assumption || lia.
Qed.

Section RoundTrip.

(** What [netip.ParseAddrPort] guarantees of a successful parse: the
    address is valid and the port is a [uint16]. *)
Hypothesis ParseAddrPort_sound :
  forall s ap, ParseAddrPort s = Ok ap ->
    netip.IsValid (netip.ip ap) = true /\ 0 <= netip.port ap < 65536.

(** C1, as amended.  For every text that [ParseSocksAddr] accepts and whose
    host part is not empty, decoding the bytes of [Slice] by type yields
    the parsed address again: the same domain name, the same port and the
    same address, without the IPv6 zone, which the wire format does not
    carry. *)
Theorem parse_encode_decode (s : string) (a : SocksAddr) :
  ParseSocksAddr ParseAddrPort s = Ok a ->
  host_part s <> EmptyString ->
  decodeByType (Slice a)
  = Ok (mkSocksAddr (netip.WithZone (addr a) EmptyString) (fqdn a) (port a)).
Proof.
  intros HP Hhost.
  destruct (ParseSocksAddr_Ok s a HP)
    as [(ap & E & ->)|(_ & _ & HL & p & _ & Hp & ->)].
  - destruct (ParseAddrPort_sound s ap E) as [Hv Hr].
    pose proof (Unmap_not_mapped (netip.ip ap)) as Hu.
    rewrite Slice_addr by reflexivity. cbn [addr fqdn port].
    destruct (netip.Unmap (netip.ip ap)) as [|a0 a1 a2 a3|] eqn:EU.
    + destruct (netip.ip ap); try discriminate.
      unfold netip.Unmap in EU.
      match type of EU with context [if ?c then _ else _] => destruct c end;
        discriminate.
    + cbn [netip.Is4 netip.AsSlice app decodeByType netip.WithZone].
      unfold be16 at 1. rewrite readBindAddr_ipv4. fold (be16 (netip.port ap)).
      now rewrite Uint16_be16.
    + cbn [netip.Is4 netip.AsSlice app decodeByType netip.WithZone].
      unfold be16 at 1. rewrite readBindAddr_ipv6. fold (be16 (netip.port ap)).
      rewrite Uint16_be16 by assumption.
      rewrite SetAddr_addr, Unmap_id by exact Hu. reflexivity.
  - assert (0 < len (host_part s)).
    { pose proof (len_nonneg (host_part s)).
      destruct (Z.eq_dec (len (host_part s)) 0) as [H0|]; [|lia].
      apply len_zero_iff in H0. contradiction. }
    rewrite Slice_fqdn by assumption.
    cbn [addr fqdn port decodeByType netip.WithZone].
    unfold be16 at 1. rewrite <- blen_bytes_of_string.
    rewrite readBindAddr_fqdn by (rewrite blen_bytes_of_string; lia).
    fold (be16 p). rewrite Uint16_be16 by lia.
    unfold string_of_bytes, bytes_of_string.
    now rewrite string_of_list_ascii_of_string.
Qed.

End RoundTrip.

End Parsing.

(** ** The session negotiator *)

Lemma dial_ok (network address : string) (w : world) :
  hd None (dials w) = None ->
  dial network address w
  = (Ok (Handle network address),
     mkWorld (tl (dials w)) (writes w) (inbound w)
       (logged w (EvDial network address))).
Proof.
  unfold dial. destruct (dials w) as [|[e|] ?]; cbn; intros; congruence.
Qed.

Lemma conn_Write_ok (b : list byte) (w : world) :
  hd None (writes w) = None ->
  conn_Write b w
  = (Ok (blen b),
     mkWorld (dials w) (tl (writes w)) (inbound w) (logged w (EvWrite b))).
Proof.
  unfold conn_Write. destruct (writes w) as [|[e|] ?]; cbn; intros; congruence.
Qed.

Lemma handleAssociateStatus_reason (status : byte) :
  handleAssociateStatus status = status_reason (Z_of_byte status).
Proof.
  unfold handleAssociateStatus.
  destruct (Z_of_byte status) as [|p|p]; [reflexivity| |reflexivity].
  do 4 (destruct p as [p|p|]; try reflexivity).
Qed.

Section Negotiator.

Variable ParseAddrPort : string -> result netip.AddrPort.
Variable Addr_String : netip.Addr -> string.

(** C6.  For a network other than "tcp" and "udp", [DialContext] fails with
    the unsupported-network error and leaves the world as it found it: no
    dial, no write and no read is performed. *)
Theorem DialContext_unsupported_network
    (d : SocksDialer) (network target : string) (w : world) :
  network <> "tcp" -> network <> "udp" ->
  DialContext ParseAddrPort Addr_String d network target w
  = (Err ("unsupported network type: " +++ network), w).
Proof.
  intros Ht Hu. unfold DialContext.
  apply String.eqb_neq in Ht, Hu. rewrite Ht, Hu. reflexivity.
Qed.

(** C3, as amended.  When the handshake reaches a command reply whose
    version byte is 5 and whose status byte is not 0, [DialContext] returns
    no connection but the error "<request> failed: <reason>", the reason
    being the entry of the status table for that status, "unassigned"
    outside the table. *)
Theorem DialContext_status_error
    (d : SocksDialer) (network target : string) (sAddr : SocksAddr)
    (w : world) (v m ver st rsv atyp : byte) (tail : list byte)
    (rest : list delivery) :
  network = "tcp" \/ network = "udp" ->
  hd None (dials w) = None ->
  hd None (writes w) = None ->
  hd None (tl (writes w)) = None ->
  inbound w = Data [v; m] :: Data (ver :: st :: rsv :: atyp :: tail) :: rest ->
  Z_of_byte v = 5 ->
  ParseSocksAddr ParseAddrPort target = Ok sAddr ->
  Z_of_byte ver = 5 ->
  Z_of_byte st <> 0 ->
  fst (DialContext ParseAddrPort Addr_String d network target w)
  = Err (reqType_of network +++ " failed: " +++ status_reason (Z_of_byte st)).
Proof.
  intros Hnet Hd Hw1 Hw2 Hin Hv Hparse Hver Hst.
  rewrite <- handleAssociateStatus_reason.
  unfold DialContext.
  replace (negb (String.eqb network "tcp") && negb (String.eqb network "udp"))
    with false by (destruct Hnet; subst; reflexivity).
  erewrite bind_ok; [|apply wrap_ok, dial_ok, Hd].
  cbv zeta.
  erewrite bind_ok; [|apply wrap_ok, conn_Write_ok, Hw1].
  erewrite bind_ok; cycle 1.
  { apply wrap_ok.
    apply (conn_Read_field [v; m] []
             (Data (ver :: st :: rsv :: atyp :: tail) :: rest));
      [exact Hin | discriminate]. }
  cbv beta iota.
  change (blen [v; m] <? 2) with false.
  change (at_ [v; m] 0) with v.
  rewrite Hv. cbn [Z.eqb Pos.eqb negb].
  rewrite Hparse.
  erewrite bind_ok; [|apply wrap_ok, conn_Write_ok, Hw2].
  erewrite bind_ok; cycle 1.
  { apply wrap_ok.
    apply (conn_Read_field [ver; st; rsv; atyp] tail rest);
      [reflexivity | discriminate]. }
  cbv beta iota.
  change (blen [ver; st; rsv; atyp] <? 4) with false.
  change (at_ [ver; st; rsv; atyp] 0) with ver.
  change (at_ [ver; st; rsv; atyp] 1) with st.
  rewrite Hver. change (negb (5 =? Version5)) with false.
  apply Z.eqb_neq in Hst. unfold AuthSuccessed. rewrite Hst.
  reflexivity.
Qed.

(** Whatever version byte other than 5 the negotiation reply carries, the
    session fails, and the message names the version of the request. *)
Lemma DialContext_negotiation_version
    (d : SocksDialer) (network target : string) (w : world)
    (v m : byte) (tail : list byte) (rest : list delivery) :
  network = "tcp" \/ network = "udp" ->
  hd None (dials w) = None ->
  hd None (writes w) = None ->
  inbound w = Data (v :: m :: tail) :: rest ->
  Z_of_byte v <> 5 ->
  fst (DialContext ParseAddrPort Addr_String d network target w)
  = Err "unsupported negotiation response version: 5".
Proof.
  intros Hnet Hd Hw1 Hin Hv.
  unfold DialContext.
  replace (negb (String.eqb network "tcp") && negb (String.eqb network "udp"))
    with false by (destruct Hnet; subst; reflexivity).
  erewrite bind_ok; [|apply wrap_ok, dial_ok, Hd].
  cbv zeta.
  erewrite bind_ok; [|apply wrap_ok, conn_Write_ok, Hw1].
  erewrite bind_ok; cycle 1.
  { apply wrap_ok.
    apply (conn_Read_field [v; m] tail rest); [exact Hin | discriminate]. }
  cbv beta iota.
  change (blen [v; m] <? 2) with false.
  change (at_ [v; m] 0) with v.
  apply Z.eqb_neq in Hv. rewrite Hv.
  reflexivity.
Qed.

(** The same for the version byte of the command reply. *)
Lemma DialContext_reply_version
    (d : SocksDialer) (network target : string) (sAddr : SocksAddr)
    (w : world) (v m ver st rsv atyp : byte) (tail : list byte)
    (rest : list delivery) :
  network = "tcp" \/ network = "udp" ->
  hd None (dials w) = None ->
  hd None (writes w) = None ->
  hd None (tl (writes w)) = None ->
  inbound w = Data [v; m] :: Data (ver :: st :: rsv :: atyp :: tail) :: rest ->
  Z_of_byte v = 5 ->
  ParseSocksAddr ParseAddrPort target = Ok sAddr ->
  Z_of_byte ver <> 5 ->
  fst (DialContext ParseAddrPort Addr_String d network target w)
  = Err ("unsupported " +++ reqType_of network +++ " response version: 5").
Proof.
  intros Hnet Hd Hw1 Hw2 Hin Hv Hparse Hver.
  unfold DialContext.
  replace (negb (String.eqb network "tcp") && negb (String.eqb network "udp"))
    with false by (destruct Hnet; subst; reflexivity).
  erewrite bind_ok; [|apply wrap_ok, dial_ok, Hd].
  cbv zeta.
  erewrite bind_ok; [|apply wrap_ok, conn_Write_ok, Hw1].
  erewrite bind_ok; cycle 1.
  { apply wrap_ok.
    apply (conn_Read_field [v; m] []
             (Data (ver :: st :: rsv :: atyp :: tail) :: rest));
      [exact Hin | discriminate]. }
  cbv beta iota.
  change (blen [v; m] <? 2) with false.
  change (at_ [v; m] 0) with v.
  rewrite Hv. cbn [Z.eqb Pos.eqb negb].
  rewrite Hparse.
  erewrite bind_ok; [|apply wrap_ok, conn_Write_ok, Hw2].
  erewrite bind_ok; cycle 1.
  { apply wrap_ok.
    apply (conn_Read_field [ver; st; rsv; atyp] tail rest);
      [reflexivity | discriminate]. }
  cbv beta iota.
  change (blen [ver; st; rsv; atyp] <? 4) with false.
  change (at_ [ver; st; rsv; atyp] 0) with ver.
  apply Z.eqb_neq in Hver.
  change (Z_of_byte ver =? Version5) with (Z_of_byte ver =? 5).
  rewrite Hver. reflexivity.
Qed.

End Negotiator.

(** ** The instance [netip_text] *)

Lemma digits_value_nonneg (s : string) (acc n : Z) :
  0 <= acc -> digits_value s acc = Some n -> 0 <= n.
Proof.
  revert acc. induction s as [|c s IH]; intros acc Hacc; cbn.
  - intros H. inversion H. lia.
  - unfold is_digit.
    destruct (Z.leb_spec 48 (Z_of_byte c)); [|discriminate].
    destruct (Z.leb_spec (Z_of_byte c) 57); [|discriminate].
    cbn [andb]. apply IH. lia.
Qed.

Lemma AddrFromSlice_valid (b : list byte) (a : netip.Addr) :
  netip.AddrFromSlice b = Some a -> netip.IsValid a = true.
Proof.
  unfold netip.AddrFromSlice.
  repeat (destruct b as [|? b]; try discriminate);
    intros H; inversion H; reflexivity.
Qed.

Lemma WithZone_valid (a : netip.Addr) (zone : string) :
  netip.IsValid (netip.WithZone a zone) = netip.IsValid a.
Proof. destruct a; reflexivity. Qed.

Lemma from16_valid (b : list byte) (zone : string) (a : netip.Addr) :
  netip_text.from16 b zone = Some a -> netip.IsValid a = true.
Proof.
  unfold netip_text.from16.
  destruct (netip.AddrFromSlice b) as [a'|] eqn:E; [|discriminate].
  intros H. inversion H. rewrite WithZone_valid.
  now apply AddrFromSlice_valid with b.
Qed.

Lemma ParseAddr_valid (s : string) (a : netip.Addr) :
  netip_text.ParseAddr s = Some a -> netip.IsValid a = true.
Proof.
  unfold netip_text.ParseAddr.
  destruct (netip_text.first_mark s) as [c|]; [|discriminate].
  destruct (Ascii.eqb c "."); [|destruct (Ascii.eqb c ":"); [|discriminate]].
  - destruct (netip_text.parseIPv4 s); [|discriminate].
    apply AddrFromSlice_valid.
  - unfold netip_text.parseIPv6.
    repeat match goal with
           | |- context [match ?x with _ => _ end] =>
               destruct x; try discriminate
           end;
      apply from16_valid.
Qed.

(** The instance meets what the dialer expects of [netip.ParseAddrPort]. *)
Lemma netip_text_ParseAddrPort_sound (s : string) (ap : netip.AddrPort) :
  netip_text.ParseAddrPort s = Ok ap ->
  netip.IsValid (netip.ip ap) = true /\ 0 <= netip.port ap < 65536.
Proof.
  unfold netip_text.ParseAddrPort.
  destruct (netip_text.splitAddrPort s) as [[[ip port] v6]|]; [|discriminate].
  destruct (netip_text.ParseUint16 port) as [p|] eqn:EP; [|discriminate].
  destruct (netip_text.ParseAddr ip) as [a|] eqn:EA; [|discriminate].
  destruct (v6 && netip.Is4 a); [discriminate|].
  destruct (negb v6 && netip.Is6 a); [discriminate|].
  intros H. inversion H. cbn [netip.ip netip.port].
  split; [now apply ParseAddr_valid with ip|].
  unfold netip_text.ParseUint16 in EP.
  destruct port as [|c port]; [discriminate|].
  destruct (digits_value (String c port) 0) as [n|] eqn:ED; [|discriminate].
  destruct (Z.leb_spec n 65535); [|discriminate].
  inversion EP; subst.
  pose proof (digits_value_nonneg _ 0 _ (Z.le_refl 0) ED). lia.
Qed.

(** ** The properties on concrete inputs *)

(** C1, witness: a host name with a port goes through parse, encode and
    decode unchanged. *)
Lemma parse_encode_decode_witness :
  parse "example.com:443" = Ok (mkSocksAddr netip.Zero "example.com" 443)
  /\ host_part "example.com:443" <> EmptyString
  /\ decodeByType (Slice (mkSocksAddr netip.Zero "example.com" 443))
     = Ok (mkSocksAddr netip.Zero "example.com" 443).
Proof.
  assert (H1 : parse "example.com:443"
               = Ok (mkSocksAddr netip.Zero "example.com" 443))
    by reflexivity.
  assert (H2 : host_part "example.com:443" <> EmptyString)
    by (vm_compute; discriminate).
  split; [exact H1|]. split; [exact H2|].
  exact (parse_encode_decode netip_text.ParseAddrPort
           netip_text_ParseAddrPort_sound _ _ H1 H2).
Defined.

(** C1, counterexample: [":80"] is accepted, with an empty name and no
    address; its encoding is the IPv6 tag followed by the port alone, which
    the decoder refuses. *)
Lemma parse_encode_decode_counterexample :
  parse ":80" = Ok (mkSocksAddr netip.Zero EmptyString 80)
  /\ Slice (mkSocksAddr netip.Zero EmptyString 80) = bytes [4; 0; 80]
  /\ decodeByType (Slice (mkSocksAddr netip.Zero EmptyString 80))
     = Err "parse ipv6 bind address failed: bind address too short".
Proof. repeat split. Qed.

Example roundtrip_ipv4 :
  parse "1.2.3.4:80" = Ok (mkSocksAddr ip_1_2_3_4 EmptyString 80)
  /\ decodeByType (Slice (mkSocksAddr ip_1_2_3_4 EmptyString 80))
     = Ok (mkSocksAddr ip_1_2_3_4 EmptyString 80).
Proof. split; reflexivity. Qed.

Example roundtrip_mapped_ipv6 :
  parse "[::ffff:1.2.3.4]:80" = Ok (mkSocksAddr ip_1_2_3_4 EmptyString 80).
Proof. reflexivity. Qed.

Example roundtrip_drops_zone :
  exists a, parse "[fe80::1%eth0]:80" = Ok a
            /\ decodeByType (Slice a)
               = Ok (mkSocksAddr (netip.WithZone (addr a) EmptyString) EmptyString 80)
            /\ netip.WithZone (addr a) EmptyString <> addr a.
Proof.
  eexists. split; [reflexivity|]. split; [reflexivity|].
  vm_compute. discriminate.
Qed.

(** C2, witness: the encoding of [example.com:443]. *)
Lemma Slice_layout_witness :
  let s := SocksAddrFromFqdnPort "example.com" 443 in
  (0 <= port s < 65536)
  /\ (0 < len (fqdn s) <= 255
      \/ (fqdn s = EmptyString /\ netip.IsValid (addr s) = true))
  /\ exists tag body hi lo,
       Slice s = tag :: body ++ [hi; lo]
       /\ Z_of_byte hi * 256 + Z_of_byte lo = port s
       /\ wire_layout (Slice s) = true
       /\ (0 < len (fqdn s) ->
           Z_of_byte tag = 3
           /\ exists l, body = l :: bytes_of_string (fqdn s)
                        /\ Z_of_byte l = blen (bytes_of_string (fqdn s)))
       /\ (fqdn s = EmptyString -> netip.Is4 (addr s) = true ->
           Z_of_byte tag = 1 /\ body = netip.AsSlice (addr s)
           /\ blen body = 4)
       /\ (fqdn s = EmptyString -> netip.Is6 (addr s) = true ->
           Z_of_byte tag = 4 /\ body = netip.AsSlice (addr s)
           /\ blen body = 16).
Proof.
  intros s.
  assert (H1 : 0 <= port s < 65536) by (cbn; lia).
  assert (H2 : 0 < len (fqdn s) <= 255
               \/ (fqdn s = EmptyString /\ netip.IsValid (addr s) = true)).
  { left. cbn. lia. }
  split; [exact H1|]. split; [exact H2|].
  exact (Slice_layout s H1 H2).
Defined.

(** C2, counterexample: a name of 256 bytes is announced by the length
    byte 0 and followed by all its 256 bytes; an address holder with
    neither name nor address is encoded as the IPv6 tag and the port, with
    no body at all. *)
Lemma Slice_layout_counterexample :
  (let s := SocksAddrFromFqdnPort (long_name 256) 80 in
   Z_of_byte (at_ (Slice s) 0) = 3
   /\ Z_of_byte (at_ (Slice s) 1) = 0
   /\ blen (Slice s) = 1 + 1 + 256 + 2
   /\ wire_layout (Slice s) = false)
  /\ (let s := SocksAddrFromFqdnPort EmptyString 80 in
      Slice s = bytes [4; 0; 80] /\ wire_layout (Slice s) = false).
Proof. vm_compute. repeat split. Qed.

(** C3, witness: status 4 in the reply to a CONNECT. *)
Lemma DialContext_status_error_witness :
  fst (dialContext proxy "tcp" "example.com:80"
         (proxy_sends [bytes [5; 0]; bytes [5; 4; 0; 1; 0; 0; 0; 0; 0; 0]]))
  = Err "connect failed: host unreachable".
Proof.
  apply (DialContext_status_error netip_text.ParseAddrPort
           netip_text.Addr_String proxy "tcp" "example.com:80"
           (mkSocksAddr netip.Zero "example.com" 80)
           (proxy_sends [bytes [5; 0]; bytes [5; 4; 0; 1; 0; 0; 0; 0; 0; 0]])
           (byte_of_Z 5) (byte_of_Z 0) (byte_of_Z 5) (byte_of_Z 4)
           (byte_of_Z 0) (byte_of_Z 1) (bytes [0; 0; 0; 0; 0; 0]) []).
  - left; reflexivity.
  - reflexivity.
  - reflexivity.
  - reflexivity.
  - reflexivity.
  - reflexivity.
  - reflexivity.
  - reflexivity.
  - vm_compute. discriminate.
Defined.

(** C3, counterexample: a reply with status 1 and version 4 is answered
    with the version error, not with the entry of the status table. *)
Lemma DialContext_status_error_counterexample :
  let r := fst (dialContext proxy "tcp" "example.com:80"
                  (proxy_sends [bytes [5; 0]; bytes [4; 1; 0; 1]])) in
  r = Err "unsupported connect response version: 5"
  /\ r <> Err (reqType_of "tcp" +++ " failed: " +++ status_reason 1).
Proof. vm_compute. split; [reflexivity | discriminate]. Qed.

Example status_200_is_unassigned :
  fst (dialContext proxy "udp" "example.com:80"
         (proxy_sends [bytes [5; 0]; bytes [5; 200; 0; 1]]))
  = Err "associate failed: unassigned".
Proof. reflexivity. Qed.

(** C4: the reply [05 00 00 03 00 00 50] announces a domain name of length
    0.  The length byte is read in full, so the test on the number of bytes
    read passes, the empty name is stored, and the CONNECT handshake ends
    with the connection. *)
Theorem DialContext_accepts_empty_fqdn :
  fst (dialContext proxy "tcp" "example.com:80"
         (proxy_sends [bytes [5; 0]; bytes [5; 0; 0; 3; 0; 0; 80]]))
  = Ok (StreamConn (Handle "tcp" "127.0.0.1:1080"))
  /\ fst (readBindAddr (byte_of_Z TypeFqdn) (delivering (bytes [0; 0; 80])))
     = Ok (mkSocksAddr netip.Zero EmptyString 80).
Proof. split; reflexivity. Qed.

(** C5: a negotiation reply and a command reply of version 4 both end the
    session, and both messages show 5, the version byte of the request,
    where the reply carried 4. *)
Theorem DialContext_version_error_shows_request_version :
  fst (dialContext proxy "tcp" "example.com:80" (proxy_sends [bytes [4; 0]]))
  = Err "unsupported negotiation response version: 5"
  /\ fst (dialContext proxy "tcp" "example.com:80"
            (proxy_sends [bytes [5; 0]; bytes [4; 0; 0; 1]]))
     = Err "unsupported connect response version: 5".
Proof. split; reflexivity. Qed.

(** C6, witness: network "icmp". *)
Lemma DialContext_unsupported_network_witness :
  "icmp" <> "tcp" /\ "icmp" <> "udp"
  /\ dialContext proxy "icmp" "example.com:80" (proxy_sends [bytes [5; 0]])
     = (Err "unsupported network type: icmp", proxy_sends [bytes [5; 0]]).
Proof.
  assert (H1 : "icmp" <> "tcp") by discriminate.
  assert (H2 : "icmp" <> "udp") by discriminate.
  split; [exact H1|]. split; [exact H2|].
  exact (DialContext_unsupported_network netip_text.ParseAddrPort
           netip_text.Addr_String proxy "icmp" "example.com:80"
           (proxy_sends [bytes [5; 0]]) H1 H2).
Defined.

Example parse_rejects_missing_colon : parse "example.com" = Err "invalid socksaddr".
Proof. reflexivity. Qed.

Example parse_rejects_256_byte_host :
  parse (long_name 256 +++ ":80") = Err "address too long".
Proof. vm_compute. reflexivity. Qed.

Example parse_accepts_255_byte_host :
  parse (long_name 255 +++ ":80") = Ok (mkSocksAddr netip.Zero (long_name 255) 80).
Proof. vm_compute. reflexivity. Qed.

Example parse_port_range :
  parse "example.com:65536" = Err "invalid port"
  /\ parse "example.com:-1" = Err "invalid port"
  /\ parse "example.com:http" = Err "invalid port"
  /\ parse "example.com:65535" = Ok (mkSocksAddr netip.Zero "example.com" 65535)
  /\ parse "example.com:0" = Ok (mkSocksAddr netip.Zero "example.com" 0).
Proof. repeat split. Qed.

(** C8: [SocksAddrFromAddrPort] stores [::ffff:1.2.3.4] as it is, and it is
    then encoded as an IPv6 address; [SetAddr] stores the same address as
    [1.2.3.4], and so does [ParseSocksAddr]. *)
Theorem SocksAddrFromAddrPort_keeps_mapped :
  let s := SocksAddrFromAddrPort (netip.AddrPortFrom mapped_1_2_3_4 80) in
  addr s = mapped_1_2_3_4
  /\ netip.Is4In6 (addr s) = true
  /\ Slice s
     = bytes [4; 0; 0; 0; 0; 0; 0; 0; 0; 0; 0; 255; 255; 1; 2; 3; 4; 0; 80]
  /\ addr (SetAddr zeroSocksAddr mapped_1_2_3_4) = ip_1_2_3_4
  /\ parse "[::ffff:1.2.3.4]:80" = Ok (mkSocksAddr ip_1_2_3_4 EmptyString 80).
Proof. repeat split. Qed.

(** C9, witness: name "a" and address 1.2.3.4 in both orders. *)
Lemma Slice_prefers_fqdn_witness :
  0 < len "a"
  /\ Slice (SetAddr (SetFqdn zeroSocksAddr "a") ip_1_2_3_4)
     = Slice (SetFqdn zeroSocksAddr "a")
  /\ Slice (SetFqdn (SetAddr zeroSocksAddr ip_1_2_3_4) "a")
     = Slice (SetFqdn zeroSocksAddr "a").
Proof.
  assert (H : 0 < len "a") by reflexivity.
  destruct (Slice_prefers_fqdn zeroSocksAddr ip_1_2_3_4 "a" H)
    as (H1 & H2 & _).
  split; [exact H|]. split; [exact H1 | exact H2].
Defined.

(** C9, counterexample: the name "a" is set first and the address 1.2.3.4
    last, yet the encoding is that of the name, not that of the address. *)
Lemma Slice_prefers_fqdn_counterexample :
  Slice (SetAddr (SetFqdn zeroSocksAddr "a") ip_1_2_3_4)
  = bytes [3; 1; 97; 0; 0]
  /\ Slice (SetAddr zeroSocksAddr ip_1_2_3_4) = bytes [1; 1; 2; 3; 4; 0; 0]
  /\ Slice (SetAddr (SetFqdn zeroSocksAddr "a") ip_1_2_3_4)
     <> Slice (SetAddr zeroSocksAddr ip_1_2_3_4).
Proof. vm_compute. repeat split. discriminate. Qed.

(** C10, witness: a name of 256 bytes is announced by the length byte 0. *)
Lemma Slice_long_fqdn_length_wraps_witness :
  len (long_name 256) > 255
  /\ exists l,
       Slice (SocksAddrFromFqdnPort (long_name 256) 80)
       = byte_of_Z TypeFqdn :: l :: bytes_of_string (long_name 256) ++ be16 80
       /\ Z_of_byte l = len (long_name 256) mod 256
       /\ blen (bytes_of_string (long_name 256)) = len (long_name 256)
       /\ Z_of_byte l <> blen (bytes_of_string (long_name 256)).
Proof.
  assert (H : len (long_name 256) > 255) by (vm_compute; reflexivity).
  split; [exact H|].
  exact (Slice_long_fqdn_length_wraps (long_name 256) 80 H).
Defined.

(** ** More on the by-type decoder *)



Lemma conn_Read_short (size : nat) (bs : list byte) (rest : list delivery)
    (w : world) :
  inbound w = Data bs :: rest ->
  (List.length bs < size)%nat ->
  exists buf w', conn_Read size w = (Ok (blen bs, buf), w').
Proof.
  intros Hin Hlt. unfold conn_Read. rewrite Hin.
  destruct size as [|k]; [lia|].
  rewrite firstn_all2 by lia. eauto.
Qed.



Lemma length_list_ascii_of_string (s : string) :
  List.length (list_ascii_of_string s) = String.length s.
Proof. induction s as [|c s IH]; simpl; congruence. Qed.

(** The decoder on the encoding of [s], in any state of the connection. *)
Lemma readBindAddr_Slice_at (s : SocksAddr) (w : world) (atyp : byte)
    (body tail : list byte) (rest : list delivery) :
  encodable s ->
  Slice s = atyp :: body ->
  inbound w = Data (body ++ tail) :: rest ->
  readBindAddr atyp w
  = (Ok (decoded s),
     mkWorld (dials w) (writes w) (remaining tail rest)
       (log w ++ reads_of s)).
Proof.
  intros [Hp [Hname | [Hempty Hvalid]]] HS Hin.
  - rewrite Slice_fqdn in HS by lia. inversion HS as [[Ht Hb]]. clear HS.
    subst atyp.
    unfold decoded, reads_of.
    destruct (Z.gtb_spec (len (fqdn s)) 0) as [_|]; [|lia].
    rewrite <- Hb in Hin. clear Hb body.
    pose proof (blen_bytes_of_string (fqdn s)) as Hbl.
    assert (Hlen : List.length (bytes_of_string (fqdn s))
                   = String.length (fqdn s)).
    { unfold blen, len in Hbl. lia. }
    remember (bytes_of_string (fqdn s)) as name eqn:Hn.
    assert (Hv : Z_of_byte (byte_of_Z (len (fqdn s))) = blen name)
      by (rewrite Hbl; apply Z_of_byte_small; lia).
    destruct name as [|c name]; [cbn in Hbl; lia|].
    set (l := byte_of_Z (len (fqdn s))) in *.
    unfold readBindAddr.
    change (Z_of_byte (byte_of_Z TypeFqdn) =? TypeIPv4) with false.
    change (Z_of_byte (byte_of_Z TypeFqdn) =? TypeFqdn) with true.
    cbv iota.
    erewrite bind_ok; cycle 1.
    { erewrite bind_ok; cycle 1.
      { apply wrap_ok.
        apply (conn_Read_field [l] ((c :: name) ++ be16 (port s) ++ tail) rest);
          [|discriminate].
        rewrite Hin. cbn [app]. now rewrite <- app_assoc. }
      cbv beta iota.
      change (blen [l] =? 0) with false. cbv iota.
      change (at_ [l] 0) with l.
      rewrite Hv. unfold blen at 1. rewrite Nat2Z.id.
      erewrite bind_ok; cycle 1.
      { apply wrap_ok.
        apply (conn_Read_field (c :: name) (be16 (port s) ++ tail) rest);
          [reflexivity | discriminate]. }
      cbv beta iota. rewrite Z.ltb_irrefl.
      reflexivity. }
    erewrite bind_ok; cycle 1.
    { apply wrap_ok.
      apply (conn_Read_field (be16 (port s)) tail rest);
        [reflexivity | discriminate]. }
    cbv beta iota.
    change (blen (be16 (port s)) <? 2) with false. cbv iota.
    unfold ret, SetPort, SetFqdn. cbn [addr fqdn zeroSocksAddr].
    rewrite Uint16_be16 by assumption.
    rewrite Hn. unfold string_of_bytes, bytes_of_string.
    rewrite string_of_list_ascii_of_string.
    f_equal. f_equal.
    unfold logged. cbn [log List.length be16].
    rewrite <- !app_assoc. cbn [app].
    now rewrite length_list_ascii_of_string.
  - rewrite Slice_addr in HS by assumption.
    unfold decoded, reads_of. rewrite Hempty.
    change (len EmptyString >? 0) with false. cbv iota.
    destruct (addr s) as [|a0 a1 a2 a3|a0 a1 a2 a3 a4 a5 a6 a7 a8 a9 a10 a11 a12 a13 a14 a15 zone] eqn:Ea;
      [discriminate Hvalid| |].
    + cbn [netip.Is4 netip.AsSlice app] in HS.
      inversion HS as [[Ht Hb]]. clear HS. subst atyp.
      rewrite <- Hb in Hin. clear Hb body.
      unfold readBindAddr.
      change (Z_of_byte (byte_of_Z TypeIPv4) =? TypeIPv4) with true.
      cbv iota.
      erewrite bind_ok; cycle 1.
      { erewrite bind_ok; cycle 1.
        { apply wrap_ok.
          apply (conn_Read_field [a0; a1; a2; a3] (be16 (port s) ++ tail) rest);
            [exact Hin | discriminate]. }
        reflexivity. }
      erewrite bind_ok; cycle 1.
      { apply wrap_ok.
        apply (conn_Read_field (be16 (port s)) tail rest);
          [reflexivity | discriminate]. }
      cbv beta iota.
      change (blen (be16 (port s)) <? 2) with false. cbv iota.
      unfold ret, SetPort. cbn [addr fqdn SetAddr netip.Is4In6 zeroSocksAddr].
      rewrite Uint16_be16 by assumption.
      cbn [netip.Is4 netip.WithZone netip.Unmap].
      f_equal. f_equal.
      unfold logged. cbn [log]. rewrite <- !app_assoc. reflexivity.
    + cbn [netip.Is4 netip.AsSlice app] in HS.
      inversion HS as [[Ht Hb]]. clear HS. subst atyp.
      rewrite <- Hb in Hin. clear Hb body.
      unfold readBindAddr.
      change (Z_of_byte (byte_of_Z TypeIPv6) =? TypeIPv4) with false.
      change (Z_of_byte (byte_of_Z TypeIPv6) =? TypeFqdn) with false.
      change (Z_of_byte (byte_of_Z TypeIPv6) =? TypeIPv6) with true.
      cbv iota.
      erewrite bind_ok; cycle 1.
      { erewrite bind_ok; cycle 1.
        { apply wrap_ok.
          apply (conn_Read_field
                   [a0; a1; a2; a3; a4; a5; a6; a7; a8; a9; a10; a11;
                    a12; a13; a14; a15] (be16 (port s) ++ tail) rest);
            [exact Hin | discriminate]. }
        cbv beta iota.
        change (blen [a0; a1; a2; a3; a4; a5; a6; a7; a8; a9; a10; a11;
                      a12; a13; a14; a15] <? 16) with false.
        cbv iota. cbn [netip.AddrFromSlice].
        rewrite SetAddr_addr. reflexivity. }
      erewrite bind_ok; cycle 1.
      { apply wrap_ok.
        apply (conn_Read_field (be16 (port s)) tail rest);
          [reflexivity | discriminate]. }
      cbv beta iota.
      change (blen (be16 (port s)) <? 2) with false. cbv iota.
      unfold ret, SetPort. cbn [addr fqdn zeroSocksAddr log].
      rewrite Uint16_be16 by assumption.
      cbn [netip.Is4 netip.WithZone].
      f_equal. f_equal.
      unfold logged. cbn [log]. rewrite <- !app_assoc. reflexivity.
Qed.

Lemma Slice_cons (s : SocksAddr) : exists atyp body, Slice s = atyp :: body.
Proof.
  unfold Slice, AppendUint16.
  destruct (len (fqdn s) >? 0); [|destruct (netip.Is4 (addr s))];
    cbn [app]; eauto.
Qed.

(** X1.  The decoder inverts [Slice] wherever the encoding stands in the
    stream: for an encodable [s], the first byte of [Slice s] is the type
    byte, and reading the remaining bytes off a segment yields [decoded s],
    performs the reads [reads_of s] and leaves the bytes that follow the
    encoding unread. *)
Theorem readBindAddr_decodes_Slice (s : SocksAddr) (tail : list byte) :
  encodable s ->
  exists atyp body,
    Slice s = atyp :: body
    /\ forall (w : world) (rest : list delivery),
         inbound w = Data (body ++ tail) :: rest ->
         readBindAddr atyp w
         = (Ok (decoded s),
            mkWorld (dials w) (writes w) (remaining tail rest)
              (log w ++ reads_of s)).
Proof.
  intros He. destruct (Slice_cons s) as (atyp & body & HS).
  exists atyp, body. split; [exact HS|].
  intros w rest Hin.
  exact (readBindAddr_Slice_at s w atyp body tail rest He HS Hin).
Qed.

(** X2.  Two encodable addresses with the same encoding decode to the same
    address: [Slice] distinguishes addresses up to the IPv6 zone, the
    IPv4-mapped form and an address hidden behind a domain name. *)
Theorem Slice_injective (s1 s2 : SocksAddr) :
  encodable s1 -> encodable s2 ->
  Slice s1 = Slice s2 -> decoded s1 = decoded s2.
Proof.
  intros H1 H2 HS.
  destruct (Slice_cons s1) as (atyp & body & E1).
  assert (E2 : Slice s2 = atyp :: body) by congruence.
  assert (Hin : inbound (delivering body) = Data (body ++ []) :: [])
    by (now rewrite app_nil_r).
  pose proof (readBindAddr_Slice_at s1 _ atyp body [] [] H1 E1 Hin) as R1.
  pose proof (readBindAddr_Slice_at s2 _ atyp body [] [] H2 E2 Hin) as R2.
  congruence.
Qed.


(** X4.  An address cut short is never decoded in part: when the read of
    an IPv4 body finds fewer than 4 bytes, or that of an IPv6 body fewer
    than 16, the decoder fails with the "too short" error of that field. *)
Theorem readBindAddr_short_address
    (v6 : bool) (w : world) (bs : list byte) (rest : list delivery) :
  inbound w = Data bs :: rest ->
  (List.length bs < if v6 then 16 else 4)%nat ->
  fst (readBindAddr (byte_of_Z (if v6 then TypeIPv6 else TypeIPv4)) w)
  = Err ("parse " +++ (if v6 then "ipv6" else "ipv4")
         +++ " bind address failed: bind address too short").
Proof.
  intros Hin Hlt. destruct v6.
  - destruct (conn_Read_short 16 bs rest w Hin Hlt) as (buf & w1 & R).
    unfold readBindAddr.
    change (Z_of_byte (byte_of_Z TypeIPv6) =? TypeIPv4) with false.
    change (Z_of_byte (byte_of_Z TypeIPv6) =? TypeFqdn) with false.
    change (Z_of_byte (byte_of_Z TypeIPv6) =? TypeIPv6) with true.
    cbv iota.
    erewrite bind_err; [reflexivity|].
    erewrite bind_ok; [|apply wrap_ok, R].
    cbv beta iota.
    replace (blen bs <? 16) with true
      by (symmetry; apply Z.ltb_lt; unfold blen; lia).
    reflexivity.
  - destruct (conn_Read_short 4 bs rest w Hin Hlt) as (buf & w1 & R).
    unfold readBindAddr.
    change (Z_of_byte (byte_of_Z TypeIPv4) =? TypeIPv4) with true.
    cbv iota.
    erewrite bind_err; [reflexivity|].
    erewrite bind_ok; [|apply wrap_ok, R].
    cbv beta iota.
    replace (blen bs <? 4) with true
      by (symmetry; apply Z.ltb_lt; unfold blen; lia).
    reflexivity.
Qed.

(** X5.  A type byte other than 1, 3 and 4 is refused at once: the decoder
    fails with the error that shows the byte and reads nothing. *)
Theorem readBindAddr_unsupported_type (atyp : byte) (w : world) :
  Z_of_byte atyp <> 1 -> Z_of_byte atyp <> 3 -> Z_of_byte atyp <> 4 ->
  readBindAddr atyp w
  = (Err ("unsupported bind address type: " +++ itoa (Z_of_byte atyp)), w).
Proof.
  intros H1 H3 H4. unfold readBindAddr, TypeIPv4, TypeFqdn, TypeIPv6.
  apply Z.eqb_neq in H1, H3, H4. rewrite H1, H3, H4.
  reflexivity.
Qed.

(** X6.  A domain name shorter than its length byte announces is refused:
    when the read of the name finds fewer bytes than declared, the decoder
    fails with the "too short" error. *)
Theorem readBindAddr_short_name
    (w : world) (l c : byte) (name : list byte) (rest : list delivery) :
  inbound w = Data (l :: c :: name) :: rest ->
  blen (c :: name) < Z_of_byte l ->
  fst (readBindAddr (byte_of_Z TypeFqdn) w)
  = Err "parse fqdn bind address failed: bind address too short".
Proof.
  intros Hin Hlt.
  set (w1 := mkWorld (dials w) (writes w) (Data (c :: name) :: rest)
               (logged w (EvRead (List.length [l])))).
  assert (Hlt' : (List.length (c :: name) < Z.to_nat (Z_of_byte l))%nat)
    by (unfold blen in Hlt; lia).
  destruct (conn_Read_short _ (c :: name) rest w1 eq_refl Hlt')
    as (buf & w2 & R).
  unfold readBindAddr.
  change (Z_of_byte (byte_of_Z TypeFqdn) =? TypeIPv4) with false.
  change (Z_of_byte (byte_of_Z TypeFqdn) =? TypeFqdn) with true.
  cbv iota.
  erewrite bind_err; [reflexivity|].
  erewrite bind_ok; cycle 1.
  { apply wrap_ok.
    apply (conn_Read_field [l] (c :: name) rest); [exact Hin | discriminate]. }
  cbv beta iota.
  change (blen [l] =? 0) with false. cbv iota.
  change (at_ [l] 0) with l.
  erewrite bind_ok; [|apply wrap_ok, R].
  cbv beta iota.
  replace (blen (c :: name) <? Z_of_byte l) with true
    by (symmetry; now apply Z.ltb_lt).
  reflexivity.
Qed.

(** ** Printing a port and parsing it back *)

Lemma digits_value_step (c : ascii) (t : string) (acc : Z) :
  is_digit c = true ->
  digits_value (String c t) acc
  = digits_value t (acc * 10 + (Z_of_byte c - 48)).
Proof. intros H. cbn [digits_value]. now rewrite H. Qed.

Lemma digits_value_uint_acc (d : Decimal.uint) (acc : positive) :
  digits_value (NilEmpty.string_of_uint d) (Z.pos acc)
  = Some (Z.pos (Pos.of_uint_acc d acc)).
Proof.
  revert acc.
  induction d as [|d IH|d IH|d IH|d IH|d IH|d IH|d IH|d IH|d IH|d IH];
    intros acc; cbn [NilEmpty.string_of_uint Pos.of_uint_acc];
    [reflexivity|..];
    rewrite digits_value_step by reflexivity;
    rewrite <- IH; f_equal;
    match goal with
    | |- context [Z_of_byte ?c] =>
        let v := eval vm_compute in (Z_of_byte c) in
        change (Z_of_byte c) with v
    end; lia.
Qed.

Lemma digits_value_uint (d : Decimal.uint) :
  digits_value (NilEmpty.string_of_uint d) 0
  = Some (Z.of_N (Pos.of_uint d)).
Proof.
  induction d as [|d IH|d IH|d IH|d IH|d IH|d IH|d IH|d IH|d IH|d IH];
    cbn [NilEmpty.string_of_uint Pos.of_uint];
    [reflexivity|..];
    rewrite digits_value_step by reflexivity;
    first [exact IH | apply digits_value_uint_acc].
Qed.

Lemma string_of_uint_head (d : Decimal.uint) :
  d <> Decimal.Nil ->
  exists c t, NilEmpty.string_of_uint d = String c t
              /\ Ascii.eqb c "-" = false /\ Ascii.eqb c "+" = false.
Proof.
  destruct d; [congruence|..]; intros _;
    cbn [NilEmpty.string_of_uint]; eauto.
Qed.

(** [strconv.Atoi] reads back what [%d] prints. *)
Lemma Atoi_itoa (p : Z) : 0 <= p <= maxInt -> Atoi (itoa p) = Some p.
Proof.
  intros Hp. unfold itoa.
  destruct p as [|q|q]; [reflexivity| |lia].
  cbn [Z.to_int NilZero.string_of_int].
  assert (Hnil : Pos.to_uint q <> Decimal.Nil).
  { intros E. pose proof (DecimalPos.Unsigned.of_to q) as H.
    rewrite E in H. discriminate. }
  assert (Hs : NilZero.string_of_uint (Pos.to_uint q)
               = NilEmpty.string_of_uint (Pos.to_uint q)).
  { unfold NilZero.string_of_uint. destruct (Pos.to_uint q); congruence. }
  rewrite Hs.
  pose proof (digits_value_uint (Pos.to_uint q)) as Hd.
  rewrite DecimalPos.Unsigned.of_to in Hd.
  destruct (string_of_uint_head _ Hnil) as (c & t & E & Hm & Hpl).
  rewrite E in *. unfold Atoi. rewrite Hm, Hpl. cbn [orb].
  rewrite Hd. cbn [Z.of_N].
  unfold minInt in *.
  destruct (Z.leb_spec (- 2 ^ 63) (Z.pos q)); [|lia].
  destruct (Z.leb_spec (Z.pos q) maxInt); [|lia].
  reflexivity.
Qed.

(** ** More on parsing and rendering *)

Lemma Cut_prefix_clean (s h p : string) (sep : ascii) :
  Cut s sep = Some (h, p) -> Contains h sep = false.
Proof.
  revert h p. induction s as [|c s IH]; intros h p; cbn [Cut].
  - discriminate.
  - destruct (Ascii.eqb c sep) eqn:Ec.
    + intros H. inversion H. reflexivity.
    + destruct (Cut s sep) as [[a b]|] eqn:E; [|discriminate].
      pose proof (IH a b eq_refl) as Ha. unfold Contains in Ha.
      intros H. inversion H; subst. unfold Contains. cbn [Cut]. rewrite Ec.
      destruct (Cut a sep); [discriminate | reflexivity].
Qed.

Lemma host_part_clean (s : string) : Contains (host_part s) ":" = false.
Proof.
  unfold host_part. destruct (Cut s ":") as [[h p]|] eqn:E.
  - now apply Cut_prefix_clean with s p.
  - unfold Contains. now rewrite E.
Qed.

Lemma Cut_append (h p : string) (sep : ascii) :
  Contains h sep = false ->
  Cut (h +++ String sep p) sep = Some (h, p).
Proof.
  induction h as [|c h IH]; cbn [String.append Cut].
  - intros _. now rewrite Ascii.eqb_refl.
  - unfold Contains. cbn [Cut].
    destruct (Ascii.eqb c sep); [discriminate|].
    intros H. rewrite IH; [reflexivity|].
    unfold Contains. destruct (Cut h sep) as [[? ?]|]; [discriminate|reflexivity].
Qed.

Section Rendering.

Variable ParseAddrPort : string -> result netip.AddrPort.
Variable Addr_String : netip.Addr -> string.

(** X7.  Every address [ParseSocksAddr] returns is well formed: it is never
    IPv4-mapped, and when it carries a domain name it carries no address,
    the name is the text before the first colon, has at most 255 bytes and
    no colon, and the port lies in [0, 65535]. *)
Theorem ParseSocksAddr_result_wellformed (s : string) (a : SocksAddr) :
  ParseSocksAddr ParseAddrPort s = Ok a ->
  netip.Is4In6 (addr a) = false
  /\ (fqdn a = EmptyString
      \/ (addr a = netip.Zero
          /\ fqdn a = host_part s
          /\ len (fqdn a) <= 255
          /\ Contains (fqdn a) ":" = false
          /\ 0 <= port a <= 65535)).
Proof.
  intros H.
  destruct (ParseSocksAddr_Ok ParseAddrPort s a H)
    as [(ap & _ & ->)|(_ & _ & HL & p & _ & Hp & ->)];
    cbn [addr fqdn port].
  - split; [apply Unmap_not_mapped | now left].
  - split; [reflexivity|]. right.
    repeat split; try assumption; try lia. apply host_part_clean.
Qed.

(** X8.  Rendering a domain-name address and parsing the text gives the
    address back: for a name of 1 to 255 bytes without colon and a port in
    [0, 65535], [ParseSocksAddr] of [String()] is the name with that port,
    provided the text is not an ip:port literal. *)
Theorem String_then_Parse (s : SocksAddr) :
  0 < len (fqdn s) <= 255 ->
  Contains (fqdn s) ":" = false ->
  0 <= port s <= 65535 ->
  is_err (ParseAddrPort (SocksAddr_String Addr_String s)) = true ->
  ParseSocksAddr ParseAddrPort (SocksAddr_String Addr_String s)
  = Ok (mkSocksAddr netip.Zero (fqdn s) (port s)).
Proof.
  intros Hlen Hclean Hport Herr.
  assert (Htext : SocksAddr_String Addr_String s
                  = fqdn s +++ String ":" (itoa (port s))).
  { unfold SocksAddr_String.
    destruct (Z.gtb_spec (len (fqdn s)) 0); [reflexivity | lia]. }
  rewrite Htext in *.
  pose proof (Cut_append (fqdn s) (itoa (port s)) ":" Hclean) as HC.
  unfold ParseSocksAddr.
  destruct (ParseAddrPort (fqdn s +++ String ":" (itoa (port s))));
    [discriminate|].
  unfold Contains, SplitN2. rewrite HC. cbn [negb].
  rewrite blen_bytes_of_string.
  destruct (Z.gtb_spec (len (fqdn s)) 255); [lia|].
  rewrite Atoi_itoa by (unfold maxInt; lia).
  destruct (Z.ltb_spec (port s) 0); [lia|].
  destruct (Z.gtb_spec (port s) 65535); [lia|].
  cbn [orb]. unfold uint16_of_Z. rewrite Z.mod_small by lia. reflexivity.
Qed.

(** X10.  [NetAddr] and [UDPAddr] agree: when [UDPAddr] succeeds,
    [NetAddr] is that UDP address; when it fails, [NetAddr] is a name
    endpoint on network "udp" whose text is [String()], that is the name,
    a colon and the port. *)
Theorem NetAddr_agrees_with_UDPAddr (s : SocksAddr) :
  match UDPAddr s with
  | Ok u => NetAddr Addr_String s = OfUDPAddr u
  | Err _ =>
      NetAddr Addr_String s = OfUDPFqdnAddr (fqdn s +++ ":" +++ itoa (port s))
      /\ SocksAddr_String Addr_String s = fqdn s +++ ":" +++ itoa (port s)
      /\ UDPFqdnAddr_Network (SocksAddr_String Addr_String s) = "udp"
  end.
Proof.
  unfold UDPAddr, NetAddr, SocksAddr_String.
  pose proof (len_nonneg (fqdn s)).
  destruct (Z.eqb_spec (len (fqdn s)) 0) as [E|E]; [reflexivity|].
  destruct (Z.gtb_spec (len (fqdn s)) 0); [|lia].
  repeat split.
Qed.

End Rendering.

(** X9.  [UDPAddr] fails exactly for the addresses [Slice] encodes as a
    domain name (tag 3); when it succeeds, its IP and port are the body
    and the port of the encoding, and its zone is the one [Slice] drops. *)
Theorem UDPAddr_agrees_with_Slice (s : SocksAddr) :
  match UDPAddr s with
  | Ok u =>
      Z_of_byte (at_ (Slice s) 0) <> 3
      /\ Slice s = at_ (Slice s) 0 :: net.IP u ++ be16 (net.Port u)
      /\ net.Zone u = netip.Zone (addr s)
  | Err _ => Z_of_byte (at_ (Slice s) 0) = 3
  end.
Proof.
  unfold UDPAddr.
  pose proof (len_nonneg (fqdn s)).
  destruct (Z.eqb_spec (len (fqdn s)) 0) as [E|E].
  - apply len_zero_iff in E.
    rewrite (Slice_addr s E). cbn [at_ nth].
    split; [|split; reflexivity].
    destruct (netip.Is4 (addr s)); vm_compute; discriminate.
  - rewrite Slice_fqdn by lia. reflexivity.
Qed.

(** ** The transport operations of a computation *)



Section Emits.

Variable ok : event -> Prop.









End Emits.

(** ** More on the session negotiator *)

Section Session.

Variable ParseAddrPort : string -> result netip.AddrPort.
Variable Addr_String : netip.Addr -> string.

(** X11.  When the proxy cannot be dialled, [DialContext] returns the dial
    error under its stage label and has done nothing but that one dial:
    nothing is written or read. *)
Theorem DialContext_dial_failure
    (d : SocksDialer) (network target : string) (w : world) (e : error) :
  network = "tcp" \/ network = "udp" ->
  hd None (dials w) = Some e ->
  DialContext ParseAddrPort Addr_String d network target w
  = (Err ("dial faile: " +++ e),
     mkWorld (tl (dials w)) (writes w) (inbound w)
       (log w ++ [EvDial "tcp" (SocksAddr_String Addr_String (dialer_addr d))])).
Proof.
  intros Hnet Hd. unfold DialContext.
  replace (negb (String.eqb network "tcp") && negb (String.eqb network "udp"))
    with false by (destruct Hnet; subst; reflexivity).
  erewrite bind_err; [reflexivity|].
  apply wrap_err. unfold dial.
  destruct (dials w) as [|[e'|] ?]; cbn in Hd; try discriminate.
  now inversion Hd.
Qed.

(** X17.  A negotiation reply of fewer than two bytes ends the session with
    the "too short" error; no command request is written. *)
Theorem DialContext_negotiation_short
    (d : SocksDialer) (network target : string) (w : world)
    (bs : list byte) (rest : list delivery) :
  network = "tcp" \/ network = "udp" ->
  hd None (dials w) = None ->
  hd None (writes w) = None ->
  inbound w = Data bs :: rest ->
  (List.length bs < 2)%nat ->
  DialContext ParseAddrPort Addr_String d network target w
  = (Err "negotiation response too short",
     mkWorld (tl (dials w)) (tl (writes w)) rest
       (log w ++ [EvDial "tcp" (SocksAddr_String Addr_String (dialer_addr d));
                  EvWrite negoReq; EvRead 2])).
Proof.
  intros Hnet Hd Hw1 Hin Hlt. unfold DialContext.
  replace (negb (String.eqb network "tcp") && negb (String.eqb network "udp"))
    with false by (destruct Hnet; subst; reflexivity).
  erewrite bind_ok; [|apply wrap_ok, dial_ok, Hd].
  cbv zeta.
  erewrite bind_ok; [|apply wrap_ok, conn_Write_ok, Hw1].
  erewrite bind_ok; cycle 1.
  { apply wrap_ok. unfold conn_Read. cbn [inbound]. rewrite Hin.
    rewrite firstn_all2, skipn_all2 by lia. reflexivity. }
  cbv beta iota.
  replace (blen bs <? 2) with true
    by (symmetry; apply Z.ltb_lt; unfold blen; lia).
  unfold fail, logged. cbn [log dials writes]. rewrite <- !app_assoc.
  reflexivity.
Qed.

(** X12.  The target text is parsed only after the negotiation: for a text
    [ParseSocksAddr] refuses, [DialContext] has dialled the proxy, written
    the negotiation request and read the reply before it returns the parse
    error, and it writes no command request. *)
Theorem DialContext_bad_target
    (d : SocksDialer) (network target : string) (w : world) (e : error)
    (v m : byte) (tail : list byte) (rest : list delivery) :
  network = "tcp" \/ network = "udp" ->
  hd None (dials w) = None ->
  hd None (writes w) = None ->
  inbound w = Data (v :: m :: tail) :: rest ->
  Z_of_byte v = 5 ->
  ParseSocksAddr ParseAddrPort target = Err e ->
  DialContext ParseAddrPort Addr_String d network target w
  = (Err ("parse socks addr failed: " +++ e),
     mkWorld (tl (dials w)) (tl (writes w)) (remaining tail rest)
       (log w ++ [EvDial "tcp" (SocksAddr_String Addr_String (dialer_addr d));
                  EvWrite negoReq; EvRead 2])).
Proof.
  intros Hnet Hd Hw1 Hin Hv Hparse. unfold DialContext.
  replace (negb (String.eqb network "tcp") && negb (String.eqb network "udp"))
    with false by (destruct Hnet; subst; reflexivity).
  erewrite bind_ok; [|apply wrap_ok, dial_ok, Hd].
  cbv zeta.
  erewrite bind_ok; [|apply wrap_ok, conn_Write_ok, Hw1].
  erewrite bind_ok; cycle 1.
  { apply wrap_ok.
    apply (conn_Read_field [v; m] tail rest); [exact Hin | discriminate]. }
  cbv beta iota.
  change (blen [v; m] <? 2) with false.
  change (at_ [v; m] 0) with v.
  rewrite Hv. cbn [Z.eqb Pos.eqb negb].
  rewrite Hparse.
  unfold fail, logged, remaining. cbn [log dials writes List.length].
  rewrite <- !app_assoc. reflexivity.
Qed.

Lemma Slice_body_nonempty (s : SocksAddr) (atyp : byte) (body : list byte) :
  Slice s = atyp :: body -> body <> [].
Proof.
  unfold Slice, AppendUint16.
  destruct (len (fqdn s) >? 0); [|destruct (netip.Is4 (addr s))];
    cbn [app]; intros H E; subst body;
    apply (f_equal (@List.length byte)) in H;
    cbn [List.length] in H; rewrite ?length_app in H;
    cbn [List.length] in H; lia.
Qed.

(** The handshake up to the four header bytes of the command reply. *)
Ltac to_reply Hnet Hd Hw1 Hw2 Hin Hv Hparse :=
  unfold DialContext;
  replace (negb (String.eqb _ "tcp") && negb (String.eqb _ "udp"))
    with false by (destruct Hnet; subst; reflexivity);
  (erewrite bind_ok; [|apply wrap_ok, dial_ok, Hd]);
  cbv zeta;
  (erewrite bind_ok; [|apply wrap_ok, conn_Write_ok, Hw1]);
  (erewrite bind_ok;
   [|apply wrap_ok;
     match type of Hin with
     | _ = Data [?v; ?m] :: ?more =>
         apply (conn_Read_field [v; m] [] more); [exact Hin | discriminate]
     end]);
  cbv beta iota;
  match type of Hin with
  | _ = Data [?v; ?m] :: _ =>
      change (blen [v; m] <? 2) with false;
      change (at_ [v; m] 0) with v
  end;
  rewrite Hv; cbn [Z.eqb Pos.eqb negb];
  rewrite Hparse;
  (erewrite bind_ok; [|apply wrap_ok, conn_Write_ok, Hw2]);
  (erewrite bind_ok;
   [|apply wrap_ok;
     match type of Hin with
     | _ = Data _ :: Data (?a :: ?b :: ?c :: ?t :: ?tail) :: ?rest =>
         apply (conn_Read_field [a; b; c; t] tail rest);
         [reflexivity | discriminate]
     end]);
  cbv beta iota;
  match type of Hin with
  | _ = Data _ :: Data (?a :: ?b :: ?c :: ?t :: _) :: _ =>
      change (blen [a; b; c; t] <? 4) with false;
      change (at_ [a; b; c; t] 0) with a;
      change (at_ [a; b; c; t] 1) with b;
      change (at_ [a; b; c; t] 2) with c;
      change (at_ [a; b; c; t] 3) with t
  end.

(** X13.  A command reply with version 5, status 0 and a reserved byte
    other than 0 ends the session with an error that shows the reserved
    byte as received. *)
Theorem DialContext_reserved_byte
    (d : SocksDialer) (network target : string) (sAddr : SocksAddr)
    (w : world) (v m ver st rsv atyp : byte) (tail : list byte)
    (rest : list delivery) :
  network = "tcp" \/ network = "udp" ->
  hd None (dials w) = None ->
  hd None (writes w) = None ->
  hd None (tl (writes w)) = None ->
  inbound w = Data [v; m] :: Data (ver :: st :: rsv :: atyp :: tail) :: rest ->
  Z_of_byte v = 5 ->
  ParseSocksAddr ParseAddrPort target = Ok sAddr ->
  Z_of_byte ver = 5 ->
  Z_of_byte st = 0 ->
  Z_of_byte rsv <> 0 ->
  fst (DialContext ParseAddrPort Addr_String d network target w)
  = Err ("invalid " +++ reqType_of network +++ " response reserved byte: "
         +++ itoa (Z_of_byte rsv)).
Proof.
  intros Hnet Hd Hw1 Hw2 Hin Hv Hparse Hver Hst Hrsv.
  to_reply Hnet Hd Hw1 Hw2 Hin Hv Hparse.
  rewrite Hver, Hst.
  change (negb (5 =? Version5)) with false.
  change (negb (0 =? AuthSuccessed)) with false.
  cbv iota.
  apply Z.eqb_neq in Hrsv.
  change (Z_of_byte rsv =? Reversed) with (Z_of_byte rsv =? 0).
  rewrite Hrsv. reflexivity.
Qed.

(** X14.  A CONNECT handshake that succeeds: when the proxy answers the
    negotiation with version 5 (whatever method byte) and the request with
    [05 00 00] and an encodable bound address, [DialContext] on "tcp"
    returns the control connection itself.  It has written exactly the
    negotiation request and [05 01 00] followed by [Slice] of the parsed
    target, and it has read the reply and not a byte more: what the proxy
    sent after the reply is still to be read. *)
Theorem DialContext_connect_success
    (d : SocksDialer) (target : string) (sAddr bnd : SocksAddr)
    (w : world) (m : byte) (tail : list byte) (rest : list delivery) :
  hd None (dials w) = None ->
  hd None (writes w) = None ->
  hd None (tl (writes w)) = None ->
  ParseSocksAddr ParseAddrPort target = Ok sAddr ->
  encodable bnd ->
  inbound w
  = Data [byte_of_Z 5; m]
      :: Data (byte_of_Z 5 :: byte_of_Z 0 :: byte_of_Z 0 :: Slice bnd ++ tail)
      :: rest ->
  DialContext ParseAddrPort Addr_String d "tcp" target w
  = (Ok (StreamConn
           (Handle "tcp" (SocksAddr_String Addr_String (dialer_addr d)))),
     mkWorld (tl (dials w)) (tl (tl (writes w))) (remaining tail rest)
       (log w
        ++ [EvDial "tcp" (SocksAddr_String Addr_String (dialer_addr d));
            EvWrite negoReq; EvRead 2;
            EvWrite (authReq "tcp" sAddr); EvRead 4]
        ++ reads_of bnd)).
Proof.
  intros Hd Hw1 Hw2 Hparse He Hin.
  destruct (Slice_cons bnd) as (atyp & body & HS).
  pose proof (Slice_body_nonempty bnd atyp body HS) as Hne.
  rewrite HS in Hin. cbn [app] in Hin.
  destruct body as [|b body]; [congruence|].
  assert (Hnet : "tcp" = "tcp" \/ "tcp" = "udp") by now left.
  assert (Hv : Z_of_byte (byte_of_Z 5) = 5) by reflexivity.
  to_reply Hnet Hd Hw1 Hw2 Hin Hv Hparse.
  change (negb (Z_of_byte (byte_of_Z 5) =? Version5)) with false.
  change (negb (Z_of_byte (byte_of_Z 0) =? AuthSuccessed)) with false.
  change (negb (Z_of_byte (byte_of_Z 0) =? Reversed)) with false.
  cbv iota.
  erewrite bind_ok; cycle 1.
  { apply (readBindAddr_Slice_at bnd _ atyp (b :: body) tail rest He HS).
    reflexivity. }
  unfold ret, logged, authReq, cmd_of, negoReq.
  cbn [log dials writes String.eqb Ascii.eqb Bool.eqb List.length].
  rewrite <- !app_assoc. reflexivity.
Qed.

(** X15.  A UDP ASSOCIATE handshake that succeeds: with the same replies on
    network "udp", [DialContext] writes [05 03 00] and [Slice] of the
    target, then dials "udp" at the text of the decoded bound address and
    returns the wrapping connection over both sockets, with a 65535-byte
    buffer; the target is recorded as fixed destination unless its address
    is unspecified or its port is 0. *)
Theorem DialContext_associate_success
    (d : SocksDialer) (target : string) (sAddr bnd : SocksAddr)
    (w : world) (m : byte) (tail : list byte) (rest : list delivery) :
  hd None (dials w) = None ->
  hd None (tl (dials w)) = None ->
  hd None (writes w) = None ->
  hd None (tl (writes w)) = None ->
  ParseSocksAddr ParseAddrPort target = Ok sAddr ->
  encodable bnd ->
  inbound w
  = Data [byte_of_Z 5; m]
      :: Data (byte_of_Z 5 :: byte_of_Z 0 :: byte_of_Z 0 :: Slice bnd ++ tail)
      :: rest ->
  DialContext ParseAddrPort Addr_String d "udp" target w
  = (Ok (PacketConn
           (mkSocksPacketConn
              (Handle "tcp" (SocksAddr_String Addr_String (dialer_addr d)))
              (Handle "udp" (SocksAddr_String Addr_String (decoded bnd)))
              65535
              (if netip.IsUnspecified (addr sAddr) || (port sAddr =? 0)
               then None else Some sAddr))),
     mkWorld (tl (tl (dials w))) (tl (tl (writes w))) (remaining tail rest)
       (log w
        ++ [EvDial "tcp" (SocksAddr_String Addr_String (dialer_addr d));
            EvWrite negoReq; EvRead 2;
            EvWrite (authReq "udp" sAddr); EvRead 4]
        ++ reads_of bnd
        ++ [EvDial "udp" (SocksAddr_String Addr_String (decoded bnd))])).
Proof.
  intros Hd Hd2 Hw1 Hw2 Hparse He Hin.
  destruct (Slice_cons bnd) as (atyp & body & HS).
  pose proof (Slice_body_nonempty bnd atyp body HS) as Hne.
  rewrite HS in Hin. cbn [app] in Hin.
  destruct body as [|b body]; [congruence|].
  assert (Hnet : "udp" = "tcp" \/ "udp" = "udp") by now right.
  assert (Hv : Z_of_byte (byte_of_Z 5) = 5) by reflexivity.
  to_reply Hnet Hd Hw1 Hw2 Hin Hv Hparse.
  change (negb (Z_of_byte (byte_of_Z 5) =? Version5)) with false.
  change (negb (Z_of_byte (byte_of_Z 0) =? AuthSuccessed)) with false.
  change (negb (Z_of_byte (byte_of_Z 0) =? Reversed)) with false.
  cbv iota.
  erewrite bind_ok; cycle 1.
  { apply (readBindAddr_Slice_at bnd _ atyp (b :: body) tail rest He HS).
    reflexivity. }
  change (String.eqb "udp" "tcp") with false. cbv iota.
  erewrite bind_ok; [|apply dial_ok; exact Hd2].
  change (is_packet_conn (Handle "udp" (SocksAddr_String Addr_String (decoded bnd))))
    with true.
  change (is_udp_conn (Handle "udp" (SocksAddr_String Addr_String (decoded bnd))))
    with true.
  cbn [negb]. cbv zeta.
  unfold ret, logged, authReq, cmd_of, negoReq.
  cbn [log dials writes inbound String.eqb Ascii.eqb Bool.eqb List.length].
  rewrite <- !app_assoc. cbn [app].
  destruct (netip.IsUnspecified (addr sAddr)); destruct (port sAddr =? 0);
    reflexivity.
Qed.


End Session.

(** ** The further properties on concrete inputs *)

(** X1, witness: [example.com:443] followed by two more bytes. *)
Lemma readBindAddr_decodes_Slice_witness :
  let s := SocksAddrFromFqdnPort "example.com" 443 in
  encodable s
  /\ exists atyp body,
       Slice s = atyp :: body
       /\ forall (w : world) (rest : list delivery),
            inbound w = Data (body ++ bytes [9; 9]) :: rest ->
            readBindAddr atyp w
            = (Ok (decoded s),
               mkWorld (dials w) (writes w) (remaining (bytes [9; 9]) rest)
                 (log w ++ reads_of s)).
Proof.
  intros s.
  assert (H : encodable s) by (split; [cbn; lia | left; cbn; lia]).
  split; [exact H|].
  exact (readBindAddr_decodes_Slice s (bytes [9; 9]) H).
Defined.

(** X2, witness: an IPv4-mapped address with and without a zone. *)
Lemma Slice_injective_witness :
  let s1 := mkSocksAddr mapped_1_2_3_4 EmptyString 53 in
  let s2 := mkSocksAddr (netip.WithZone mapped_1_2_3_4 "eth0") EmptyString 53 in
  encodable s1 /\ encodable s2 /\ Slice s1 = Slice s2
  /\ decoded s1 = decoded s2.
Proof.
  intros s1 s2.
  assert (H1 : encodable s1)
    by (split; [cbn; lia | right; split; reflexivity]).
  assert (H2 : encodable s2)
    by (split; [cbn; lia | right; split; reflexivity]).
  assert (HS : Slice s1 = Slice s2) by reflexivity.
  split; [exact H1|]. split; [exact H2|]. split; [exact HS|].
  exact (Slice_injective s1 s2 H1 H2 HS).
Defined.


(** X4, witness: five bytes where an IPv6 address is due. *)
Lemma readBindAddr_short_address_witness :
  fst (readBindAddr (byte_of_Z TypeIPv6)
         (delivering (bytes [1; 2; 3; 4; 5])))
  = Err "parse ipv6 bind address failed: bind address too short".
Proof.
  apply (readBindAddr_short_address true
           (delivering (bytes [1; 2; 3; 4; 5])) (bytes [1; 2; 3; 4; 5]) []).
  - reflexivity.
  - cbn. lia.
Defined.

(** X5, witness: the type byte 2. *)
Lemma readBindAddr_unsupported_type_witness :
  readBindAddr (byte_of_Z 2) (delivering (bytes [1; 2; 3; 4; 0; 80]))
  = (Err "unsupported bind address type: 2",
     delivering (bytes [1; 2; 3; 4; 0; 80])).
Proof.
  apply (readBindAddr_unsupported_type (byte_of_Z 2)
           (delivering (bytes [1; 2; 3; 4; 0; 80])));
    vm_compute; discriminate.
Defined.

(** X6, witness: five bytes announced, two delivered. *)
Lemma readBindAddr_short_name_witness :
  fst (readBindAddr (byte_of_Z TypeFqdn) (delivering (bytes [5; 97; 98])))
  = Err "parse fqdn bind address failed: bind address too short".
Proof.
  apply (readBindAddr_short_name (delivering (bytes [5; 97; 98]))
           (byte_of_Z 5) (byte_of_Z 97) (bytes [98]) []).
  - reflexivity.
  - vm_compute. reflexivity.
Defined.

(** X7, witness: [example.com:443]. *)
Lemma ParseSocksAddr_result_wellformed_witness :
  let a := mkSocksAddr netip.Zero "example.com" 443 in
  parse "example.com:443" = Ok a
  /\ netip.Is4In6 (addr a) = false
  /\ (fqdn a = EmptyString
      \/ (addr a = netip.Zero
          /\ fqdn a = host_part "example.com:443"
          /\ len (fqdn a) <= 255
          /\ Contains (fqdn a) ":" = false
          /\ 0 <= port a <= 65535)).
Proof.
  intros a.
  assert (H : parse "example.com:443" = Ok a) by reflexivity.
  split; [exact H|].
  exact (ParseSocksAddr_result_wellformed netip_text.ParseAddrPort _ _ H).
Defined.

(** X8, witness: [example.com:443] rendered and parsed. *)
Lemma String_then_Parse_witness :
  let s := mkSocksAddr netip.Zero "example.com" 443 in
  SocksAddr_String netip_text.Addr_String s = "example.com:443"
  /\ parse (SocksAddr_String netip_text.Addr_String s) = Ok s.
Proof.
  intros s. split; [reflexivity|].
  apply (String_then_Parse netip_text.ParseAddrPort netip_text.Addr_String s).
  - cbn. lia.
  - reflexivity.
  - cbn. lia.
  - reflexivity.
Defined.

(** X11, witness: the proxy refuses the connection. *)
Lemma DialContext_dial_failure_witness :
  dialContext proxy "tcp" "example.com:80"
    (mkWorld [Some "connection refused"] [] [] [])
  = (Err "dial faile: connection refused",
     mkWorld [] [] [] [EvDial "tcp" "127.0.0.1:1080"]).
Proof.
  apply (DialContext_dial_failure netip_text.ParseAddrPort
           netip_text.Addr_String proxy "tcp" "example.com:80"
           (mkWorld [Some "connection refused"] [] [] [])
           "connection refused").
  - now left.
  - reflexivity.
Defined.

(** X17, witness: a negotiation reply of one byte. *)
Lemma DialContext_negotiation_short_witness :
  fst (dialContext proxy "udp" "example.com:80" (proxy_sends [bytes [5]]))
  = Err "negotiation response too short".
Proof.
  unfold dialContext.
  rewrite (DialContext_negotiation_short netip_text.ParseAddrPort
             netip_text.Addr_String proxy "udp" "example.com:80"
             (proxy_sends [bytes [5]]) (bytes [5]) []);
    [reflexivity | now right | reflexivity | reflexivity | reflexivity
     | cbn; lia].
Defined.

(** X12, witness: a target without colon. *)
Lemma DialContext_bad_target_witness :
  dialContext proxy "tcp" "example.com" (proxy_sends [bytes [5; 0]])
  = (Err "parse socks addr failed: invalid socksaddr",
     mkWorld [] [] []
       [EvDial "tcp" "127.0.0.1:1080"; EvWrite (bytes [5; 1; 0]); EvRead 2]).
Proof.
  apply (DialContext_bad_target netip_text.ParseAddrPort
           netip_text.Addr_String proxy "tcp" "example.com"
           (proxy_sends [bytes [5; 0]]) "invalid socksaddr"
           (byte_of_Z 5) (byte_of_Z 0) [] []).
  - now left.
  - reflexivity.
  - reflexivity.
  - reflexivity.
  - reflexivity.
  - reflexivity.
Defined.

(** X13, witness: the reserved byte 7. *)
Lemma DialContext_reserved_byte_witness :
  fst (dialContext proxy "tcp" "example.com:80"
         (proxy_sends [bytes [5; 0]; bytes [5; 0; 7; 1; 1; 2; 3; 4; 0; 80]]))
  = Err "invalid connect response reserved byte: 7".
Proof.
  apply (DialContext_reserved_byte netip_text.ParseAddrPort
           netip_text.Addr_String proxy "tcp" "example.com:80"
           (mkSocksAddr netip.Zero "example.com" 80)
           (proxy_sends [bytes [5; 0]; bytes [5; 0; 7; 1; 1; 2; 3; 4; 0; 80]])
           (byte_of_Z 5) (byte_of_Z 0) (byte_of_Z 5) (byte_of_Z 0)
           (byte_of_Z 7) (byte_of_Z 1) (bytes [1; 2; 3; 4; 0; 80]) []).
  - now left.
  - reflexivity.
  - reflexivity.
  - reflexivity.
  - reflexivity.
  - reflexivity.
  - reflexivity.
  - reflexivity.
  - reflexivity.
  - vm_compute. discriminate.
Defined.

(** X14, witness: CONNECT to [example.com:80], bound at 1.2.3.4:1080, with
    one byte of payload already behind the reply. *)
Lemma DialContext_connect_success_witness :
  dialContext proxy "tcp" "example.com:80"
    (proxy_sends [bytes [5; 0]; bytes [5; 0; 0; 1; 1; 2; 3; 4; 4; 56; 42]])
  = (Ok (StreamConn (Handle "tcp" "127.0.0.1:1080")),
     mkWorld [] [] [Data (bytes [42])]
       [EvDial "tcp" "127.0.0.1:1080"; EvWrite (bytes [5; 1; 0]); EvRead 2;
        EvWrite (bytes [5; 1; 0; 3; 11; 101; 120; 97; 109; 112; 108; 101;
                        46; 99; 111; 109; 0; 80]);
        EvRead 4; EvRead 4; EvRead 2]).
Proof.
  apply (DialContext_connect_success netip_text.ParseAddrPort
           netip_text.Addr_String proxy "example.com:80"
           (mkSocksAddr netip.Zero "example.com" 80)
           (mkSocksAddr ip_1_2_3_4 EmptyString 1080)
           (proxy_sends
              [bytes [5; 0]; bytes [5; 0; 0; 1; 1; 2; 3; 4; 4; 56; 42]])
           (byte_of_Z 0) (bytes [42]) []).
  - reflexivity.
  - reflexivity.
  - reflexivity.
  - reflexivity.
  - split; [cbn; lia | right; split; reflexivity].
  - reflexivity.
Defined.

(** X15, witness: ASSOCIATE for [8.8.8.8:53], relay at 1.2.3.4:1080. *)
Lemma DialContext_associate_success_witness :
  fst (dialContext proxy "udp" "8.8.8.8:53"
         (proxy_sends [bytes [5; 0]; bytes [5; 0; 0; 1; 1; 2; 3; 4; 4; 56]]))
  = Ok (PacketConn
          (mkSocksPacketConn (Handle "tcp" "127.0.0.1:1080")
             (Handle "udp" "1.2.3.4:1080") 65535
             (Some (mkSocksAddr
                      (netip.V4 (byte_of_Z 8) (byte_of_Z 8) (byte_of_Z 8)
                         (byte_of_Z 8)) EmptyString 53)))).
Proof.
  unfold dialContext.
  rewrite (DialContext_associate_success netip_text.ParseAddrPort
             netip_text.Addr_String proxy "8.8.8.8:53"
             (mkSocksAddr
                (netip.V4 (byte_of_Z 8) (byte_of_Z 8) (byte_of_Z 8)
                   (byte_of_Z 8)) EmptyString 53)
             (mkSocksAddr ip_1_2_3_4 EmptyString 1080)
             (proxy_sends
                [bytes [5; 0]; bytes [5; 0; 0; 1; 1; 2; 3; 4; 4; 56]])
             (byte_of_Z 0) [] []);
    [reflexivity | reflexivity | reflexivity | reflexivity | reflexivity
     | reflexivity | split; [cbn; lia | right; split; reflexivity]
     | reflexivity].
Defined.
